(** * Joy healer (app.py): a shallow embedding and its verified properties

    The application is a single Streamlit script.  Its logic is
    - [get_api_key]: credential resolution (secret store, then environment);
    - [get_constellation_element]: the zodiac sign to element table;
    - [build_system_prompt]: the personalised prompt, an f-string template;
    - [get_ai_response]: one call to the remote completion endpoint;
    - the session state and the three widget handlers of the script
      (confirm, reset, chat input).

    Python [str] values are embedded as [string], holding the UTF-8
    encoding of the text: equality, emptiness and concatenation of Python
    strings coincide with those of their encodings.  A Python [dict] with
    string keys is a [gmap string _]; the transcript is a [list]. *)

From Stdlib Require Import Ascii String ZArith.
From stdpp Require Import gmap strings list fin_maps pretty.

#[local] Set Warnings "-register-all".

(** String append computes on literals again. *)
#[local] Arguments String.append !s1 s2 / : simpl nomatch.

(* ================================================================= *)
(** ** Python strings *)

Definition nl : string := String "010"%char EmptyString.
Definition dq : string := String "034"%char EmptyString.

(** Truth value of a string: [if s:] holds iff [s] is not empty. *)
Definition truthy (s : string) : bool :=
  match s with
  | EmptyString => false
  | String _ _ => true
  end.

(** [x in l] for a list of strings. *)
Definition str_in (x : string) (l : list string) : bool :=
  existsb (String.eqb x) l.

(** [needle in hay] for two strings (substring test). *)
Fixpoint contains (needle hay : string) : bool :=
  String.prefix needle hay ||
  match hay with
  | EmptyString => false
  | String _ hay' => contains needle hay'
  end.

(** [s.split("\n")]: the lines of a text. *)
Fixpoint lines (s : string) : list string :=
  match s with
  | EmptyString => [EmptyString]
  | String c s' =>
      if Ascii.eqb c "010"%char then EmptyString :: lines s'
      else match lines s' with
           | [] => [String c EmptyString]
           | l :: ls => String c l :: ls
           end
  end.

(** A text without line break. *)
Fixpoint single_line (s : string) : bool :=
  match s with
  | EmptyString => true
  | String c s' => negb (Ascii.eqb c "010"%char) && single_line s'
  end.


(* ================================================================= *)
(** ** Zodiac classifier *)

Definition fire_signs : list string := ["白羊"; "狮子"; "射手"].
Definition water_signs : list string := ["巨蟹"; "天蝎"; "双鱼"].
Definition earth_signs : list string := ["金牛"; "处女"; "摩羯"].
Definition air_signs : list string := ["双子"; "天秤"; "水瓶"].

Definition get_constellation_element (constellation : string) : string :=
  if str_in constellation fire_signs then "火象星座"
  else if str_in constellation water_signs then "水象星座"
  else if str_in constellation earth_signs then "土象星座"
  else if str_in constellation air_signs then "风象星座"
  else "未知元素".

(** The options of the sign select box. *)
Definition constellation_options : list string :=
  ["白羊"; "金牛"; "双子"; "巨蟹"; "狮子"; "处女";
   "天秤"; "天蝎"; "射手"; "摩羯"; "水瓶"; "双鱼"].

(** Classification succeeded: the element is one of the four, not the
    fallback label. *)
Definition classified (constellation : string) : bool :=
  negb (String.eqb (get_constellation_element constellation) "未知元素").

(* ================================================================= *)
(** ** Prompt builder *)

Definition SYSTEM_PROMPT : string :=
  nl +:+
  "你是一位名为" +:+ dq +:+ "Joy" +:+ dq +:+ "的赛博心灵疗愈师。" +:+ nl +:+
  "你的核心任务是：在不安的世界里，为用户提供一个" +:+ dq +:+ "被接纳" +:+ dq +:+ "的安全空间。" +:+ nl +:+
  nl +:+
  "【你的性格】" +:+ nl +:+
  "1. 声音温暖、深邃，带有一点神秘的东方哲学气息。" +:+ nl +:+
  "2. 永远不要说教。当用户表达痛苦时，先共情，再解读。" +:+ nl +:+
  "3. 擅长将" +:+ dq +:+ "现实困境" +:+ dq +:+ "转化为" +:+ dq +:+ "玄学/心理学视角" +:+ dq +:+ "：" +:+ nl +:+
  "   - 用" +:+ dq +:+ "能量周期" +:+ dq +:+ "、" +:+ dq +:+ "星象影响" +:+ dq +:+ "、" +:+ dq +:+ "潜意识保护机制" +:+ dq +:+ "来解释挫折，帮用户卸下心理负担。" +:+ nl +:+
  nl +:+
  "【回复规范】" +:+ nl +:+
  "1. 语气要像深夜电台的老友，温柔而坚定。" +:+ nl +:+
  "2. 每次回复结尾，必须给出一个**极简的、具体的、带有仪式感**的行动建议（Micro-Action）。" +:+ nl +:+
  "   - 例如：" +:+ dq +:+ "今晚把卧室的灯调暗" +:+ dq +:+ "、" +:+ dq +:+ "去摸摸路边的树叶" +:+ dq +:+ "、" +:+ dq +:+ "喝一杯温热的蜂蜜水" +:+ dq +:+ "。" +:+ nl.

(** [d.get(k, dflt)] on a dict of strings. *)
Definition dict_get (d : gmap string string) (k dflt : string) : string :=
  default dflt (d !! k).

(** Truth value of [d.get(k)]: [None] and the empty string are false. *)
Definition dict_get_truthy (d : gmap string string) (k : string) : bool :=
  match d !! k with
  | Some v => truthy v
  | None => false
  end.

(** The local [astro_info] of [build_system_prompt], grown by [+=]. *)
Definition astro_info (name constellation element birth_date birth_time : string)
  : string :=
  let astro_info := "用户姓名：" +:+ name +:+ nl +:+ "星座：" +:+ constellation in
  let astro_info :=
    if truthy element
    then astro_info +:+ (nl +:+ "星座元素：" +:+ element)
    else astro_info in
  let astro_info :=
    if truthy birth_date
    then astro_info +:+ (nl +:+ "出生日期：" +:+ birth_date)
    else astro_info in
  let astro_info :=
    if truthy birth_time
    then astro_info +:+ (nl +:+ "出生时间：" +:+ birth_time)
    else astro_info in
  astro_info.

(** The f-string of [build_system_prompt], with its four holes. *)
Definition personalized_prompt (astro_info constellation element name : string)
  : string :=
  SYSTEM_PROMPT +:+ nl +:+
  nl +:+
  "【用户星盘信息】" +:+ nl +:+
  astro_info +:+ nl +:+
  nl +:+
  "【重要要求】" +:+ nl +:+
  "1. **必须结合用户的星座特性**来解读问题，给出符合其星座能量的建议。" +:+ nl +:+
  "2. 如果是" +:+ constellation +:+ "（" +:+ element +:+ "），要结合该星座的典型特征：" +:+ nl +:+
  "   - 火象星座：行动力、热情、直接" +:+ nl +:+
  "   - 水象星座：情感细腻、直觉强、敏感" +:+ nl +:+
  "   - 土象星座：务实、稳定、注重实际" +:+ nl +:+
  "   - 风象星座：理性、沟通、灵活" +:+ nl +:+
  "3. 在回复中要自然地提及星座能量、星象影响等玄学元素。" +:+ nl +:+
  "4. 用" +:+ dq +:+ "亲爱的" +:+ name +:+ dq +:+ "来称呼用户，让对话更亲切。" +:+ nl.


Definition build_system_prompt (user_info : gmap string string) : string :=
  let name := dict_get user_info "name" "朋友" in
  let constellation := dict_get user_info "constellation" "" in
  let birth_date := dict_get user_info "birth_date" "" in
  let birth_time := dict_get user_info "birth_time" "" in
  let element := get_constellation_element constellation in
  let astro_info := astro_info name constellation element birth_date birth_time in
  personalized_prompt astro_info constellation element name.

(* ================================================================= *)
(** ** Credential resolution *)

(** Exceptions and fallible evaluation. *)
Inductive exn :=
| FileNotFoundError
| TOMLDecodeError
| TypeError
| AttributeError
| IndexError.

Inductive result (A : Type) :=
| Ok (a : A)
| Raise (e : exn).
Arguments Ok {A} a.
Arguments Raise {A} e.

Definition bind {A B : Type} (m : result A) (k : A -> result B) : result B :=
  match m with
  | Ok a => k a
  | Raise e => Raise e
  end.

Notation "'let?' x := m 'in' k" := (bind m (fun x => k))
  (at level 10, x name, m at level 100, k at level 200).

(** The values a secrets file can hold. A float is kept as the text
    [str] gives for it and its truth value; a date or a time as its
    text. *)
Inductive toml :=
| TStr (s : string)
| TInt (z : Z)
| TBool (b : bool)
| TFloat (repr : string) (truth : bool)
| TDate (repr : string)
| TArray (items : list toml)
| TTable (entries : list (string * toml)).

(** Lookup of a key in a table. *)
Fixpoint assoc (k : string) (entries : list (string * toml)) : option toml :=
  match entries with
  | [] => None
  | (k', v) :: rest => if String.eqb k k' then Some v else assoc k rest
  end.

Definition is_str (k : string) (v : toml) : bool :=
  match v with
  | TStr s => String.eqb s k
  | _ => false
  end.

(** [k in v]: membership for a table, an array and a string; a type
    error for the other scalars. *)
Definition py_contains (k : string) (v : toml) : result bool :=
  match v with
  | TTable entries => Ok (bool_decide (is_Some (assoc k entries)))
  | TArray items => Ok (existsb (is_str k) items)
  | TStr s => Ok (contains k s)
  | TInt _ | TBool _ | TFloat _ _ | TDate _ => Raise TypeError
  end.

(** [v.k]: attribute access, defined on tables only. *)
Definition py_getattr (k : string) (v : toml) : result toml :=
  match v with
  | TTable entries =>
      match assoc k entries with
      | Some x => Ok x
      | None => Raise AttributeError
      end
  | _ => Raise AttributeError
  end.

(** What the secret store finds on disk. *)
Inductive secrets_file :=
| SecretsMissing
| SecretsMalformed
| SecretsLoaded (top : list (string * toml)).

(** The surroundings of the process when the script starts: whether
    [st] has a [secrets] attribute, the secrets file, and the environment
    variables. *)
Record world := {
  st_has_secrets : bool;
  st_secrets : secrets_file;
  environ : gmap string string
}.

(** A computation that may raise and that reads and writes
    [os.environ]. *)
Definition proc (A : Type) : Type :=
  gmap string string -> result A * gmap string string.

Definition pure {A : Type} (r : result A) : proc A := fun env => (r, env).

Definition and_then {A B : Type} (m : proc A) (k : A -> proc B) : proc B :=
  fun env =>
    match m env with
    | (Ok a, env') => k a env'
    | (Raise e, env') => (Raise e, env')
    end.

Notation "'let*' x := m 'in' k" := (and_then m (fun x => k))
  (at level 10, x name, m at level 100, k at level 200).

(** The text under which the secret store exports a top-level value to
    the environment: strings, integers and floats are exported, through
    [str]; nothing else is. *)
Definition exported (v : toml) : option string :=
  match v with
  | TStr s => Some s
  | TInt z => Some (pretty z)
  | TFloat repr _ => Some repr
  | TBool _ | TDate _ | TArray _ | TTable _ => None
  end.

(** The loop over the top-level entries of the parsed file, each
    exported value overwriting the variable of its name. *)
Fixpoint export_secrets (top : list (string * toml))
    (env : gmap string string) : gmap string string :=
  match top with
  | [] => env
  | (k, v) :: rest =>
      export_secrets rest
        (match exported v with
         | Some text => <[k := text]> env
         | None => env
         end)
  end.

(** The text exported under the name [k], if any: the last exported
    entry of that name. *)
Fixpoint exported_at (k : string) (top : list (string * toml))
  : option string :=
  match top with
  | [] => None
  | (k', v) :: rest =>
      match exported_at k rest with
      | Some text => Some text
      | None => if String.eqb k k' then exported v else None
      end
  end.

(** Reading the secret store parses the file, which fails when the file
    is missing or malformed, and otherwise exports its top-level values
    to the environment. The library parses at the first access and keeps
    the result; a later access is modelled as a parse too, since
    exporting the same values again changes nothing. *)
Definition secrets_parse (w : world) : proc toml :=
  fun env =>
    match st_secrets w with
    | SecretsMissing => (Raise FileNotFoundError, env)
    | SecretsMalformed => (Raise TOMLDecodeError, env)
    | SecretsLoaded top => (Ok (TTable top), export_secrets top env)
    end.

(** ['k' in st.secrets] and [st.secrets.k]. *)
Definition secrets_contains (w : world) (k : string) : proc bool :=
  let* top := secrets_parse w in pure (py_contains k top).

Definition secrets_getattr (w : world) (k : string) : proc toml :=
  let* top := secrets_parse w in pure (py_getattr k top).

(** The body of the [try]: [Ok (Some v)] when it returns [v], [Ok None]
    when the condition is false, [Raise e] when an exception escapes;
    and the environment it leaves. *)
Definition secrets_lookup (w : world) : proc (option toml) :=
  if st_has_secrets w then
    let* has_group := secrets_contains w "deepseek" in
    if has_group then
      let* group := secrets_getattr w "deepseek" in
      let* has_key := pure (py_contains "api_key" group) in
      if has_key then
        let* group := secrets_getattr w "deepseek" in
        let* key := pure (py_getattr "api_key" group) in
        pure (Ok (Some key))
      else pure (Ok None)
    else pure (Ok None)
  else pure (Ok None).

(** [os.getenv(k)] followed by the truth test of its result, in the
    environment [env]. *)
Definition getenv_truthy (env : gmap string string) (k : string)
  : option toml :=
  match env !! k with
  | Some api_key => if truthy api_key then Some (TStr api_key) else None
  | None => None
  end.

Definition get_api_key (w : world) : option toml :=
  let '(found, env) := secrets_lookup w (environ w) in
  match found with
  | Ok (Some key) => Some key
  | Ok None | Raise _ => getenv_truthy env "DEEPSEEK_API_KEY"
  end.

(** The environment [os.getenv] reads once the [try] is over: that of
    the process, with the top-level values of the secrets file exported
    into it when the file was read. *)
Definition environ_after_secrets (w : world) : gmap string string :=
  if st_has_secrets w then
    match st_secrets w with
    | SecretsLoaded top => export_secrets top (environ w)
    | _ => environ w
    end
  else environ w.

(** The secret store holds a value at the nested path group / field. *)
Definition secret_at (w : world) (group field : string) : option toml :=
  if st_has_secrets w then
    match st_secrets w with
    | SecretsLoaded top =>
        match assoc group top with
        | Some (TTable entries) => assoc field entries
        | _ => None
        end
    | _ => None
    end
  else None.

(** Resolution as the specification words it: the secret store first,
    then the environment variable (as [os.getenv] then reads it), else
    absent. *)
Definition resolve_credential_spec (w : world) : option toml :=
  match secret_at w "deepseek" "api_key" with
  | Some key => Some key
  | None =>
      match environ_after_secrets w !! "DEEPSEEK_API_KEY" with
      | Some k => if truthy k then Some (TStr k) else None
      | None => None
      end
  end.

(* ================================================================= *)
(** ** Completion client *)

Definition MY_BASE_URL : string := "https://api.deepseek.com".
Definition MY_MODEL_NAME : string := "deepseek-chat".

Inductive Role := system | user | assistant.

Record Message := { role : Role; content : string }.

Record Client := { client_api_key : toml; client_base_url : string }.

(** Truth value of a resolved credential. *)
Definition toml_truthy (v : toml) : bool :=
  match v with
  | TStr s => truthy s
  | TInt z => negb (Z.eqb z 0)
  | TBool b => b
  | TFloat _ truth => truth
  | TDate _ => true
  | TArray items => match items with [] => false | _ => true end
  | TTable entries => match entries with [] => false | _ => true end
  end.

Definition get_client (MY_API_KEY : option toml) : option Client :=
  match MY_API_KEY with
  | Some key =>
      if toml_truthy key
      then Some {| client_api_key := key; client_base_url := MY_BASE_URL |}
      else None
  | None => None
  end.

(** The module-level [client]: the client of the credential resolved
    in the world [w]. *)
Definition client_of (w : world) : option Client :=
  get_client (get_api_key w).

(** One chat-completion request, and what comes back: the contents of
    the returned choices (each taken to be a text), or an exception with
    its text. *)
Record Request := {
  req_model : string;
  req_messages : list Message;
  req_stream : bool
}.

Inductive Outcome :=
| Completed (choices : list string)
| Failed (description : string).

(** What one HTTP attempt comes to inside the client library: an answer
    or an error that ends the call ([Final]), or a connection error or
    a status after which the library tries again ([Retryable]), with the
    text of the error. *)
Inductive Attempt :=
| Final (o : Outcome)
| Retryable (description : string).

(** The behaviour of the endpoint as seen through a client: what the
    attempt number [n] (counted from 0) of a request comes to. *)
Definition Remote : Type := Client -> Request -> nat -> Attempt.

(** [OpenAI(api_key=..., base_url=...)] sets no [max_retries]: the
    library's default of two retries applies. *)
Definition MAX_RETRIES : nat := 2.

(** What a script run does to the outside, in order; [EvNetwork] is one
    HTTP request sent. *)
Inductive event :=
| EvNetwork (c : Client) (r : Request)
| EvError (msg : string)
| EvWrite (who : Role) (text : string)
| EvRerun.

(** A computation with a log of events. *)
Definition logged (A : Type) : Type := A * list event.

Definition ret {A : Type} (a : A) : logged A := (a, []).

Definition emit (e : event) : logged unit := (tt, [e]).

Definition then_ {A B : Type} (m : logged A) (k : A -> logged B) : logged B :=
  let '(a, l1) := m in
  let '(b, l2) := k a in
  (b, l1 ++ l2).

Notation "'let!' x := m 'in' k" := (then_ m (fun x => k))
  (at level 10, x name, m at level 100, k at level 200).

(** The attempts of one call, from attempt [n] on: each sends the
    request; a retryable failure is tried again while retries are left,
    and ends the call as its error when none is. *)
Fixpoint send (remote : Remote) (c : Client) (r : Request) (n : nat)
    (retries_left : nat) : logged Outcome :=
  let! u := emit (EvNetwork c r) in
  match remote c r n with
  | Final o => ret o
  | Retryable description =>
      match retries_left with
      | 0 => ret (Failed description)
      | S k => send remote c r (S n) k
      end
  end.

(** [client.chat.completions.create(...)]. *)
Definition completions_create (remote : Remote) (c : Client) (r : Request)
  : logged Outcome :=
  send remote c r 0 MAX_RETRIES.

(** [response.choices[0].message.content] inside the [try]. *)
Definition first_choice (o : Outcome) : string + string :=
  match o with
  | Completed (reply :: _) => inl reply
  | Completed [] => inr "list index out of range"
  | Failed description => inr description
  end.

Definition get_ai_response (remote : Remote) (client : option Client)
    (user_input : string) (messages : list Message) : logged string :=
  match client with
  | None => ret "❌ API Key 未配置，无法连接服务。"
  | Some c =>
      let! response :=
        completions_create remote c
          {| req_model := MY_MODEL_NAME; req_messages := messages;
             req_stream := false |} in
      match first_choice response with
      | inl reply => ret reply
      | inr e =>
          ret ("❌ 连接波动: " +:+ e +:+ nl +:+
               "请检查 API Key 是否填对，或者余额是否充足。")
      end
  end.

(* ================================================================= *)
(** ** Session state and the script's handlers *)

Record SessionState := {
  user_info : gmap string string;
  messages : list Message;
  system_prompt : option string
}.

(** The session dictionary before [init_session_state]: each key may be
    missing. *)
Record RawSession := {
  raw_user_info : option (gmap string string);
  raw_messages : option (list Message);
  raw_system_prompt : option (option string)
}.

Definition init_session_state (raw : RawSession) : SessionState :=
  {| user_info := default ∅ (raw_user_info raw);
     messages := default [] (raw_messages raw);
     system_prompt := default None (raw_system_prompt raw) |}.

(** A session that has just started. *)
Definition fresh_session : SessionState :=
  init_session_state
    {| raw_user_info := None; raw_messages := None;
       raw_system_prompt := None |}.

(** The sidebar shows the form when the profile is missing or has no
    sign; otherwise it shows the collected profile and the chat. *)
Definition form_shown (s : SessionState) : bool :=
  bool_decide (user_info s = ∅) || negb (dict_get_truthy (user_info s) "constellation").

Definition chat_shown (s : SessionState) : bool :=
  negb (bool_decide (user_info s = ∅)) && dict_get_truthy (user_info s) "constellation".

(** The name the form hands on: the text typed, or the fallback. *)
Definition form_name (typed : string) : string :=
  if truthy typed then typed else "朋友".

(** The dict literal built at confirmation. *)
Definition profile_of (name constellation birth_date birth_time : string)
  : gmap string string :=
  <["name" := name]> (<["constellation" := constellation]>
    (<["birth_date" := birth_date]> (<["birth_time" := birth_time]> ∅))).

(** The confirm button's handler. *)
Definition on_confirm (name constellation birth_date birth_time : string)
    (s : SessionState) : logged SessionState :=
  if truthy constellation then
    let user_info := profile_of name constellation birth_date birth_time in
    let system_prompt := build_system_prompt user_info in
    let! u := emit EvRerun in
    ret {| user_info := user_info;
           messages := [ {| role := system; content := system_prompt |} ];
           system_prompt := Some system_prompt |}
  else
    let! u := emit (EvError "请至少选择你的星座！") in ret s.

(** The reset button's handler. *)
Definition on_reset (s : SessionState) : logged SessionState :=
  let! u := emit EvRerun in
  ret {| user_info := ∅; messages := []; system_prompt := None |}.

(** The chat input's handler, for a submitted text. *)
Definition on_chat (remote : Remote) (client : option Client) (prompt : string)
    (s : SessionState) : logged SessionState :=
  let messages1 := messages s ++ [ {| role := user; content := prompt |} ] in
  let! u := emit (EvWrite user prompt) in
  let! ai_reply := get_ai_response remote client prompt messages1 in
  let! u := emit (EvWrite assistant ai_reply) in
  ret {| user_info := user_info s;
         messages := messages1 ++ [ {| role := assistant; content := ai_reply |} ];
         system_prompt := system_prompt s |}.

(** What the user can do between two runs of the script. *)
Inductive action :=
| Confirm (typed_name constellation birth_date birth_time : string)
| ResetProfile
| Chat (prompt : string).

(** One run of the script after an action: a widget fires only if the
    branch that draws it is taken. *)
Definition run (remote : Remote) (client : option Client) (a : action)
    (s : SessionState) : logged SessionState :=
  match a with
  | Confirm typed constellation birth_date birth_time =>
      if form_shown s
      then on_confirm (form_name typed) constellation birth_date birth_time s
      else ret s
  | ResetProfile =>
      if form_shown s then ret s else on_reset s
  | Chat prompt =>
      if chat_shown s && truthy prompt
      then on_chat remote client prompt s
      else ret s
  end.

(** The select box offers the empty choice and the twelve signs. *)
Definition offered (a : action) : bool :=
  match a with
  | Confirm _ constellation _ _ => str_in constellation ("" :: constellation_options)
  | _ => true
  end.

(** The states a session can be in. *)
Inductive reachable (remote : Remote) (client : option Client)
  : SessionState -> Prop :=
| reach_fresh : reachable remote client fresh_session
| reach_run a s :
    reachable remote client s -> offered a = true ->
    reachable remote client (fst (run remote client a s)).


Definition unnamed_profile : gmap string string :=
  profile_of "" "白羊" "" "".

(** The optional birth-date line of the profile block. *)
Definition birth_date_line (birth_date : string) : string :=
  if truthy birth_date then nl +:+ "出生日期：" +:+ birth_date else "".

(** The optional birth-time line of the profile block. *)
Definition birth_time_line (birth_time : string) : string :=
  if truthy birth_time then nl +:+ "出生时间：" +:+ birth_time else "".

(** The last line of the prompt: how the user is to be addressed. *)
Definition honorific_line (name : string) : string :=
  "4. 用" +:+ dq +:+ "亲爱的" +:+ name +:+ dq +:+ "来称呼用户，让对话更亲切。" +:+ nl.

(** What holds of a session at every point: either nothing is stored,
    or a profile with a name and a sign is stored, the transcript starts
    with the system message built from it, and [system_prompt] holds the
    same text. *)
Definition consistent (s : SessionState) : Prop :=
  (user_info s = ∅ /\ messages s = [] /\ system_prompt s = None) \/
  (exists name constellation birth_date birth_time rest,
      name <> "" /\ constellation <> "" /\
      user_info s = profile_of name constellation birth_date birth_time /\
      messages s =
        {| role := system; content := build_system_prompt (user_info s) |}
          :: rest /\
      system_prompt s = Some (build_system_prompt (user_info s))).

(** The sign stored in the session, if any, is one of the twelve. *)
Definition sign_listed (s : SessionState) : Prop :=
  forall c, user_info s !! "constellation" = Some c ->
            In c constellation_options.

(** The text shown when no sign was selected, and the reply given when
    no client exists. *)
Definition validation_message : string := "请至少选择你的星座！".
Definition configuration_error : string := "❌ API Key 未配置，无法连接服务。".

(** A world with no secrets file and the key in the environment; a
    world whose secrets file holds the key; a world whose [deepseek]
    entry is a text, not a table. *)
Definition world_env_only : world :=
  {| st_has_secrets := true; st_secrets := SecretsMissing;
     environ := {[ "DEEPSEEK_API_KEY" := "sk-env" ]} |}.

Definition world_with_secret : world :=
  {| st_has_secrets := true;
     st_secrets := SecretsLoaded [("deepseek", TTable [("api_key", TStr "sk-file")])];
     environ := {[ "DEEPSEEK_API_KEY" := "sk-env" ]} |}.

Definition world_text_group : world :=
  {| st_has_secrets := true;
     st_secrets := SecretsLoaded [("deepseek", TStr "my api_key here")];
     environ := ∅ |}.

(** A client and an endpoint that always answers, for concrete runs,
    and the session right after a profile was confirmed. *)
Definition demo_client : option Client :=
  get_client (Some (TStr "sk-file")).

Definition demo_remote : Remote :=
  fun _ _ _ => Final (Completed ["深呼吸。今晚把卧室的灯调暗。"]).

Definition confirmed_session : SessionState :=
  fst (run demo_remote demo_client (Confirm "Alex" "狮子" "" "") fresh_session).

(* ================================================================= *)
(** ** Further notions *)

(** The session dictionary once every key is set. *)
Definition as_raw (s : SessionState) : RawSession :=
  {| raw_user_info := Some (user_info s);
     raw_messages := Some (messages s);
     raw_system_prompt := Some (system_prompt s) |}.

(** A world whose secrets file holds an empty key while the environment
    holds a key. *)
Definition world_empty_secret : world :=
  {| st_has_secrets := true;
     st_secrets := SecretsLoaded [("deepseek", TTable [("api_key", TStr "")])];
     environ := {[ "DEEPSEEK_API_KEY" := "sk-env" ]} |}.

(** The client built from a concrete key, and endpoints: one that
    refuses, one that returns no choice, one that returns two, one whose
    first attempt fails on the connection, one that is down. *)
Definition demo_handle : Client :=
  {| client_api_key := TStr "sk-file"; client_base_url := MY_BASE_URL |}.

Definition failing_remote : Remote :=
  fun _ _ _ => Final (Failed "Insufficient Balance").

Definition silent_remote : Remote :=
  fun _ _ _ => Final (Completed []).

Definition talkative_remote : Remote :=
  fun _ _ _ => Final (Completed ["先深呼吸。"; "第二个回答"]).

Definition flaky_remote : Remote :=
  fun _ _ n =>
    match n with
    | 0 => Retryable "Connection error."
    | _ => Final (Completed ["先深呼吸。"])
    end.

Definition down_remote : Remote :=
  fun _ _ _ => Retryable "Internal Server Error".

(** The reply [get_ai_response] makes of what the call came to. *)
Definition reply_of (o : Outcome) : string :=
  match first_choice o with
  | inl reply => reply
  | inr e =>
      "❌ 连接波动: " +:+ e +:+ nl +:+
      "请检查 API Key 是否填对，或者余额是否充足。"
  end.

(** A world whose secrets file holds the key at its top level, under the
    name of the environment variable, which is not set. *)
Definition world_top_level_key : world :=
  {| st_has_secrets := true;
     st_secrets := SecretsLoaded [("DEEPSEEK_API_KEY", TStr "sk-top")];
     environ := ∅ |}.

(** The request [get_ai_response] sends for a transcript. *)
Definition request_for (transcript : list Message) : Request :=
  {| req_model := MY_MODEL_NAME; req_messages := transcript;
     req_stream := false |}.

(** The reply made from the text of a caught exception. *)
Definition failure_reply (description : string) : string :=
  "❌ 连接波动: " +:+ description +:+ nl +:+
  "请检查 API Key 是否填对，或者余额是否充足。".

(** Equality of roles. *)
Definition role_eqb (a b : Role) : bool :=
  match a, b with
  | system, system | user, user | assistant, assistant => true
  | _, _ => false
  end.

(** A list of completed turns: user message, assistant message, and so
    on. *)
Fixpoint turns (l : list Message) : bool :=
  match l with
  | [] => true
  | u :: l' =>
      match l' with
      | [] => false
      | a :: rest =>
          role_eqb (role u) user && role_eqb (role a) assistant && turns rest
      end
  end.

(** The requests a log holds, in order. *)
Fixpoint network_requests (log : list event) : list (Client * Request) :=
  match log with
  | [] => []
  | EvNetwork c r :: rest => (c, r) :: network_requests rest
  | _ :: rest => network_requests rest
  end.

(** Several runs of the script, one per action. *)
Fixpoint run_many (remote : Remote) (client : option Client)
    (actions : list action) (s : SessionState) : logged SessionState :=
  match actions with
  | [] => ret s
  | a :: rest =>
      let! s1 := run remote client a s in
      run_many remote client rest s1
  end.

(** The session after the profile (Alex, 狮子) and one user text. *)
Definition session_after_one_turn : SessionState :=
  fst (run demo_remote demo_client (Chat "我很焦虑") confirmed_session).

(** The part of the f-string of [build_system_prompt] that follows the
    profile block. *)
Definition requirements (constellation element name : string) : string :=
  nl +:+
  nl +:+
  "【重要要求】" +:+ nl +:+
  "1. **必须结合用户的星座特性**来解读问题，给出符合其星座能量的建议。" +:+ nl +:+
  "2. 如果是" +:+ constellation +:+ "（" +:+ element +:+ "），要结合该星座的典型特征：" +:+ nl +:+
  "   - 火象星座：行动力、热情、直接" +:+ nl +:+
  "   - 水象星座：情感细腻、直觉强、敏感" +:+ nl +:+
  "   - 土象星座：务实、稳定、注重实际" +:+ nl +:+
  "   - 风象星座：理性、沟通、灵活" +:+ nl +:+
  "3. 在回复中要自然地提及星座能量、星象影响等玄学元素。" +:+ nl +:+
  "4. 用" +:+ dq +:+ "亲爱的" +:+ name +:+ dq +:+ "来称呼用户，让对话更亲切。" +:+ nl.

(** The four values [build_system_prompt] reads from a profile, with
    the defaults it uses for missing keys. *)
Definition profile_fields (ui : gmap string string)
  : string * string * string * string :=
  (dict_get ui "name" "朋友", dict_get ui "constellation" "",
   dict_get ui "birth_date" "", dict_get ui "birth_time" "").

(** None of the four values holds a line break. *)
Definition single_line_fields (ui : gmap string string) : bool :=
  single_line (dict_get ui "name" "朋友") &&
  single_line (dict_get ui "constellation" "") &&
  single_line (dict_get ui "birth_date" "") &&
  single_line (dict_get ui "birth_time" "").

(* ================================================================= *)
(** ** The page *)

(** Where a widget is drawn. *)
Inductive area := Main | Sidebar.

(** What a run of the script does, in order: the widgets it draws, the
    requests it sends, and how it ends early. *)
Inductive widget :=
| WPageConfig (page_title page_icon layout : string)
| WTitle (text : string)
| WHeader (text : string)
| WMarkdown (text : string)
| WError (text : string)
| WSuccess (text : string)
| WInfo (text : string)
| WTextInput (label value : string) (placeholder : option string)
| WSelectbox (label : string) (options : list string) (index : nat)
| WButton (label : string) (primary : bool)
| WChatMessage (name : Role) (avatar : option string) (text : string)
| WChatInput (placeholder : string)
| WSpinner (text : string)
| WCall (c : Client) (r : Request)
| WStop
| WRerun.

(** How a run of the script ends: at its last line, at [st.stop()], at
    [st.rerun()], or with an uncaught exception. *)
Inductive flow := Continue | Stopped | Rerunning | Crashed.

(** Truth value of [MY_API_KEY]. *)
Definition credential_truthy (key : option toml) : bool :=
  match key with
  | Some k => toml_truthy k
  | None => false
  end.

Definition SETUP_INSTRUCTIONS : string :=
  nl +:+
  "    ### 📝 配置方法（选择其一）：" +:+ nl +:+
  "    " +:+ nl +:+
  "    **方法 1：使用 Streamlit Secrets（推荐）**" +:+ nl +:+
  "    1. 创建 `.streamlit/secrets.toml` 文件" +:+ nl +:+
  "    2. 添加以下内容：" +:+ nl +:+
  "    ```toml" +:+ nl +:+
  "    [deepseek]" +:+ nl +:+
  "    api_key = " +:+ dq +:+ "sk-你的API密钥" +:+ dq +:+ nl +:+
  "    ```" +:+ nl +:+
  "    " +:+ nl +:+
  "    **方法 2：使用环境变量**" +:+ nl +:+
  "    1. 在终端中设置：" +:+ nl +:+
  "    ```bash" +:+ nl +:+
  "    # Windows PowerShell" +:+ nl +:+
  "    $env:DEEPSEEK_API_KEY=" +:+ dq +:+ "sk-你的API密钥" +:+ dq +:+ nl +:+
  "    " +:+ nl +:+
  "    # Windows CMD" +:+ nl +:+
  "    set DEEPSEEK_API_KEY=sk-你的API密钥" +:+ nl +:+
  "    " +:+ nl +:+
  "    # Linux/Mac" +:+ nl +:+
  "    export DEEPSEEK_API_KEY=" +:+ dq +:+ "sk-你的API密钥" +:+ dq +:+ nl +:+
  "    ```" +:+ nl +:+
  "    2. 然后运行 `streamlit run app.py`" +:+ nl +:+
  "    " +:+ nl +:+
  "    **获取 API Key**: https://platform.deepseek.com/api_keys" +:+ nl +:+
  "    ".

Definition USAGE_NOTES : string :=
  nl +:+
  "    ### 🌟 使用说明" +:+ nl +:+
  "    1. 在左侧边栏填写你的基本信息（至少需要选择星座）" +:+ nl +:+
  "    2. 点击" +:+ dq +:+ "确认信息，开始疗愈" +:+ dq +:+ "按钮" +:+ nl +:+
  "    3. 开始与 Joy 疗愈师对话，她会结合你的星盘为你解读" +:+ nl +:+
  "    ".

(** [l.index(x)]: the first position of [x], or [None] for the
    [ValueError] raised when [x] is not in the list. *)
Fixpoint list_index (x : string) (l : list string) : option nat :=
  match l with
  | [] => None
  | y :: rest =>
      if String.eqb y x then Some 0 else option_map S (list_index x rest)
  end.

(** The [index] argument of the sign select box. *)
Definition selectbox_index (ui : gmap string string) : option nat :=
  if negb (dict_get_truthy ui "constellation") then Some 0
  else option_map S
         (list_index (dict_get ui "constellation" "") constellation_options).

(** The form, drawn after the name input once [index] is known. *)
Definition form_widgets (ui : gmap string string) (index : nat) : list widget :=
  [ WSelectbox "⭐ 你的星座" ("" :: constellation_options) index;
    WTextInput "📅 出生日期 (可选)" (dict_get ui "birth_date" "")
      (Some "YYYY-MM-DD");
    WTextInput "⏰ 出生时间 (可选)" (dict_get ui "birth_time" "")
      (Some "HH:MM");
    WButton "✨ 确认信息，开始疗愈" true ].

(** The collected profile, as the sidebar shows it. *)
Definition summary_widgets (ui : gmap string string) : list widget :=
  [ WSuccess "✅ 星盘信息已收集";
    WInfo ("**姓名**: " +:+ dict_get ui "name" "朋友");
    WInfo ("**星座**: " +:+ dict_get ui "constellation" "") ]
  ++ (if dict_get_truthy ui "birth_date"
      then [WInfo ("**出生日期**: " +:+ dict_get ui "birth_date" "")]
      else [])
  ++ (if dict_get_truthy ui "birth_time"
      then [WInfo ("**出生时间**: " +:+ dict_get ui "birth_time" "")]
      else [])
  ++ [ WButton "🔄 重新设置信息" false ].

(** How an event of a handler shows on the page. *)
Definition shown (e : event) : widget :=
  match e with
  | EvNetwork c r => WCall c r
  | EvError msg => WError msg
  | EvWrite user text => WChatMessage user None text
  | EvWrite who text => WChatMessage who (Some "🔮") text
  | EvRerun => WRerun
  end.

(** A handler that asked for a rerun ends the run. *)
Definition flow_of (log : list event) : flow :=
  if existsb (fun e => match e with EvRerun => true | _ => false end) log
  then Rerunning else Continue.

(** The sidebar: the form or the collected profile, and the handler of
    the button that was clicked, if any. *)
Definition sidebar (input : option action) (s : SessionState)
  : SessionState * list widget * flow :=
  let header := WHeader "✨ 星盘能量收集" in
  if form_shown s then
    let name_input :=
      WTextInput "🌙 你的名字" (dict_get (user_info s) "name" "") None in
    match selectbox_index (user_info s) with
    | None => (s, [header; name_input], Crashed)
    | Some index =>
        let drawn := header :: name_input :: form_widgets (user_info s) index in
        match input with
        | Some (Confirm typed constellation birth_date birth_time) =>
            let '(s', log) :=
              on_confirm (form_name typed) constellation birth_date
                birth_time s in
            (s', drawn ++ map shown log, flow_of log)
        | _ => (s, drawn, Continue)
        end
    end
  else
    let drawn := header :: summary_widgets (user_info s) in
    match input with
    | Some ResetProfile =>
        let '(s', log) := on_reset s in
        (s', drawn ++ map shown log, flow_of log)
    | _ => (s, drawn, Continue)
    end.

(** The loop that draws the chat history. *)
Fixpoint history (transcript : list Message) : list widget :=
  match transcript with
  | [] => []
  | message :: rest =>
      match role message with
      | system => history rest
      | user => WChatMessage user None (content message) :: history rest
      | assistant =>
          WChatMessage assistant (Some "🔮") (content message) :: history rest
      end
  end.

(** The welcome, drawn while the transcript has one entry. *)
Definition welcome (s : SessionState) : list widget :=
  if Nat.eqb (length (messages s)) 1
  then [ WSuccess ("✨ 欢迎，" +:+ dict_get (user_info s) "name" "朋友" +:+ "！");
         WInfo "我已经读取了你的星盘能量，现在可以开始对话了。告诉我你的烦恼，我会结合你的星盘来为你解读。" ]
  else [].

(** A submitted chat text, as the chat branch handles it. *)
Definition chat_turn (remote : Remote) (client : option Client)
    (prompt : string) (s : SessionState) : SessionState * list widget :=
  let messages1 := messages s ++ [ {| role := user; content := prompt |} ] in
  let '(ai_reply, log) := get_ai_response remote client prompt messages1 in
  ({| user_info := user_info s;
      messages := messages1 ++ [ {| role := assistant; content := ai_reply |} ];
      system_prompt := system_prompt s |},
   [ WChatMessage user None prompt; WSpinner "🔮 正在读取星盘能量..." ]
   ++ map shown log
   ++ [ WChatMessage assistant (Some "🔮") ai_reply ]).

(** The main area: the chat, or the hint to fill in the form. *)
Definition main_area (remote : Remote) (client : option Client)
    (input : option action) (s : SessionState) : SessionState * list widget :=
  if chat_shown s then
    let drawn :=
      welcome s ++ history (messages s) ++ [ WChatInput "告诉我你的烦恼..." ] in
    match input with
    | Some (Chat prompt) =>
        if truthy prompt then
          let '(s', turn) := chat_turn remote client prompt s in
          (s', drawn ++ turn)
        else (s, drawn)
    | _ => (s, drawn)
    end
  else
    (s, [ WInfo "👈 请在左侧边栏填写你的星盘信息，然后开始对话。";
          WMarkdown USAGE_NOTES ]).

(** One run of the whole script: [key] is [MY_API_KEY], [client] the
    cached client, [input] the widget that fired, [raw] the session
    dictionary the run finds. *)
Definition script (key : option toml) (remote : Remote)
    (client : option Client) (input : option action) (raw : RawSession)
  : SessionState * list (area * widget) * flow :=
  let config := [ (Main, WPageConfig "Joy 心灵疗愈师" "🔮" "wide") ] in
  let s := init_session_state raw in
  if negb (credential_truthy key) then
    (s,
     config ++ [ (Main, WError "⚠️ API Key 未配置！");
                 (Main, WMarkdown SETUP_INSTRUCTIONS);
                 (Main, WStop) ],
     Stopped)
  else
    let top :=
      config ++ [ (Main, WTitle "🔮 Joy 心灵疗愈师"); (Main, WMarkdown "---") ] in
    let '(s1, side, fl) := sidebar input s in
    match fl with
    | Continue =>
        let '(s2, body) := main_area remote client input s1 in
        (s2, top ++ map (pair Sidebar) side ++ map (pair Main) body, Continue)
    | _ => (s1, top ++ map (pair Sidebar) side, fl)
    end.

(** What a click or a submitted text leads to: the run it triggers and,
    when that run asks for it, the rerun that follows. The result is the
    session and the page left on screen. *)
Definition interact (key : option toml) (remote : Remote)
    (client : option Client) (a : action) (raw : RawSession)
  : SessionState * list (area * widget) :=
  let '(s1, page, fl) := script key remote client (Some a) raw in
  match fl with
  | Rerunning =>
      let '(s2, page2, _) := script key remote client None (as_raw s1) in
      (s2, page2)
  | _ => (s1, page)
  end.

(** The requests among what a run did. *)
Fixpoint calls (page : list (area * widget)) : list (Client * Request) :=
  match page with
  | [] => []
  | (_, WCall c r) :: rest => (c, r) :: calls rest
  | _ :: rest => calls rest
  end.

(** The chat bubbles among drawn widgets. *)
Fixpoint bubbles (drawn : list widget) : list widget :=
  match drawn with
  | [] => []
  | WChatMessage name avatar text :: rest =>
      WChatMessage name avatar text :: bubbles rest
  | _ :: rest => bubbles rest
  end.

(** The widgets every page starts with once a key is configured. *)
Definition page_top : list (area * widget) :=
  [ (Main, WPageConfig "Joy 心灵疗愈师" "🔮" "wide");
    (Main, WTitle "🔮 Joy 心灵疗愈师"); (Main, WMarkdown "---") ].

(** The page drawn when no key is configured. *)
Definition gate_page : list (area * widget) :=
  [ (Main, WPageConfig "Joy 心灵疗愈师" "🔮" "wide");
    (Main, WError "⚠️ API Key 未配置！");
    (Main, WMarkdown SETUP_INSTRUCTIONS);
    (Main, WStop) ].

(** The bubble of a transcript entry, and the entries that get one. *)
Definition bubble_of (m : Message) : widget :=
  WChatMessage (role m)
    (match role m with user => None | _ => Some "🔮" end) (content m).

Fixpoint visible (transcript : list Message) : list Message :=
  match transcript with
  | [] => []
  | m :: rest =>
      match role m with
      | system => visible rest
      | _ => m :: visible rest
      end
  end.

(* ================================================================= *)
(** * Properties *)

(* ================================================================= *)
(** ** Strings *)

Section Strings.

Implicit Types a b c s : string.

Lemma append_cons x a s : String x a +:+ s = String x (a +:+ s).
Proof. reflexivity. Qed.

Lemma append_assoc a b c : (a +:+ b) +:+ c = a +:+ (b +:+ c).
Proof.
  induction a as [|x a IH]; [reflexivity|].
  rewrite !append_cons. now f_equal.
Qed.

Lemma append_empty_l s : "" +:+ s = s.
Proof. reflexivity. Qed.

Lemma append_empty_r a : a +:+ "" = a.
Proof.
  induction a as [|x a IH]; [reflexivity|].
  rewrite !append_cons. now f_equal.
Qed.

Lemma truthy_true s : truthy s = true <-> s <> "".
Proof. destruct s; simpl; split; intros; congruence. Qed.

Lemma str_in_In s l : str_in s l = true <-> In s l.
Proof.
  unfold str_in. rewrite existsb_exists. split.
  - intros (y & Hy & E). apply String.eqb_eq in E. now subst.
  - intros H. exists s. split; [assumption | apply String.eqb_refl].
Qed.









(** Moving one more piece of a right-nested text to the front part. *)
Lemma split_off a p t s : s = p +:+ t -> a +:+ s = (a +:+ p) +:+ t.
Proof. intros ->. now rewrite append_assoc. Qed.

End Strings.

(** Writes a right-nested concatenation that ends in [t] as [?p +:+ t]. *)
Ltac peel_to_suffix :=
  repeat first [ exact (eq_sym (append_empty_l _)) | eapply split_off ].

(* ================================================================= *)
(** ** Zodiac classifier *)

Lemma element_truthy c : truthy (get_constellation_element c) = true.
Proof.
  unfold get_constellation_element.
  repeat match goal with |- context [if ?b then _ else _] => destruct b end;
    reflexivity.
Qed.


Lemma classified_options c :
  classified c = true <-> In c constellation_options.
Proof.
  unfold classified, get_constellation_element, constellation_options.
  destruct (str_in c fire_signs) eqn:F;
    [apply str_in_In in F; simpl in F; split; [intros _; simpl; tauto | reflexivity]|].
  destruct (str_in c water_signs) eqn:W;
    [apply str_in_In in W; simpl in W; split; [intros _; simpl; tauto | reflexivity]|].
  destruct (str_in c earth_signs) eqn:E;
    [apply str_in_In in E; simpl in E; split; [intros _; simpl; tauto | reflexivity]|].
  destruct (str_in c air_signs) eqn:A;
    [apply str_in_In in A; simpl in A; split; [intros _; simpl; tauto | reflexivity]|].
  split; [discriminate|]. intros H. exfalso.
  assert (Hn : forall l, str_in c l = false -> ~ In c l).
  { intros l Hl Hin. apply str_in_In in Hin. congruence. }
  apply Hn in F, W, E, A. simpl in *. tauto.
Qed.

(** C1. The classifier returns the element of the table for each of the
    twelve signs (fire for 白羊, 狮子, 射手; water for 巨蟹, 天蝎, 双鱼;
    earth for 金牛, 处女, 摩羯; air for 双子, 天秤, 水瓶), and the unknown
    element for every other string, the empty one included. *)
Theorem classifier_table :
  (get_constellation_element "白羊" = "火象星座" /\
   get_constellation_element "狮子" = "火象星座" /\
   get_constellation_element "射手" = "火象星座") /\
  (get_constellation_element "巨蟹" = "水象星座" /\
   get_constellation_element "天蝎" = "水象星座" /\
   get_constellation_element "双鱼" = "水象星座") /\
  (get_constellation_element "金牛" = "土象星座" /\
   get_constellation_element "处女" = "土象星座" /\
   get_constellation_element "摩羯" = "土象星座") /\
  (get_constellation_element "双子" = "风象星座" /\
   get_constellation_element "天秤" = "风象星座" /\
   get_constellation_element "水瓶" = "风象星座") /\
  get_constellation_element "" = "未知元素" /\
  (forall s : string,
      ~ In s constellation_options ->
      get_constellation_element s = "未知元素").
Proof.
  repeat split; try reflexivity.
  intros s H.
  destruct (classified s) eqn:E.
  - apply classified_options in E. contradiction.
  - unfold classified in E. apply negb_false_iff, String.eqb_eq in E.
    exact E.
Qed.

(** The classifier at a label outside the table. *)
Lemma classifier_table_witness :
  ~ In "Leo" constellation_options /\
  get_constellation_element "Leo" = "未知元素".
Proof.
  assert (H : ~ In "Leo" constellation_options).
  { simpl. intros H. repeat destruct H as [H|H]; try discriminate H. exact H. }
  split; [exact H|].
  exact (proj2 (proj2 (proj2 (proj2 (proj2 classifier_table)))) "Leo" H).
Defined.

(* ================================================================= *)
(** ** Prompt builder *)

Section Block.

Implicit Types n c e bd bt : string.

(** Once the element is known to be non-empty, the block is the name,
    sign and element lines followed by the two optional lines. *)
Lemma astro_info_shape n c e bd bt :
  truthy e = true ->
  astro_info n c e bd bt =
  ("用户姓名：" +:+ n) +:+ nl +:+ ("星座：" +:+ c) +:+ nl +:+
  ("星座元素：" +:+ e) +:+ birth_date_line bd +:+ birth_time_line bt.
Proof.
  unfold astro_info, birth_date_line, birth_time_line. intros ->.
  destruct (truthy bd), (truthy bt);
    rewrite ?append_assoc, ?append_empty_r; reflexivity.
Qed.



Section SingleLineFields.

Variables n c e bd bt : string.
Hypothesis He : truthy e = true.
Hypothesis Hn : single_line n = true.
Hypothesis Hc : single_line c = true.
Hypothesis Hse : single_line e = true.
Hypothesis Hbd : single_line bd = true.
Hypothesis Hbt : single_line bt = true.




End SingleLineFields.

(** The f-string puts the block between a fixed head and a tail that
    does not depend on the block. *)
Lemma personalized_prompt_split c e n :
  exists tail, forall block,
    personalized_prompt block c e n =
    SYSTEM_PROMPT +:+ nl +:+ nl +:+ "【用户星盘信息】" +:+ nl +:+ block +:+ tail.
Proof. eexists. intros block. unfold personalized_prompt. reflexivity. Qed.

(** The prompt ends with the line that tells how to address the user. *)
Lemma personalized_prompt_honorific block c e n :
  exists pre, personalized_prompt block c e n = pre +:+ honorific_line n.
Proof.
  eexists. unfold personalized_prompt, honorific_line. peel_to_suffix.
Qed.

End Block.


Section BuiltPrompt.

Variable ui : gmap string string.

Let name := dict_get ui "name" "朋友".
Let constellation := dict_get ui "constellation" "".
Let birth_date := dict_get ui "birth_date" "".
Let birth_time := dict_get ui "birth_time" "".


Lemma prompt_ends_with_honorific :
  exists pre, build_system_prompt ui = pre +:+ honorific_line name.
Proof. unfold build_system_prompt. apply personalized_prompt_honorific. Qed.


End BuiltPrompt.



(** C7. The builder is a function of the profile, and two profiles that
    differ only in [birth_date] give prompts that share everything
    before and everything after the birth-date line; that line is there
    iff the field is not empty. *)
Theorem birth_date_changes_only_its_line (ui1 ui2 : gmap string string) :
  (ui1 = ui2 -> build_system_prompt ui1 = build_system_prompt ui2) /\
  ((forall k : string, k <> "birth_date" -> ui1 !! k = ui2 !! k) ->
   exists before after,
     build_system_prompt ui1 =
       before +:+ birth_date_line (dict_get ui1 "birth_date" "") +:+ after /\
     build_system_prompt ui2 =
       before +:+ birth_date_line (dict_get ui2 "birth_date" "") +:+ after) /\
  (forall d : string,
      (d = "" -> birth_date_line d = "") /\
      (d <> "" -> birth_date_line d = nl +:+ "出生日期：" +:+ d)).
Proof.
  split; [intros ->; reflexivity|]. split.
  - intros H.
    assert (G : forall k dflt, k <> "birth_date" ->
                dict_get ui1 k dflt = dict_get ui2 k dflt).
    { intros k dflt Hk. unfold dict_get. now rewrite (H k Hk). }
    unfold build_system_prompt.
    rewrite <- (G "name" "朋友"), <- (G "constellation" ""),
      <- (G "birth_time" "") by discriminate.
    set (n := dict_get ui1 "name" "朋友").
    set (c := dict_get ui1 "constellation" "").
    set (bt := dict_get ui1 "birth_time" "").
    destruct (personalized_prompt_split c (get_constellation_element c) n)
      as [tail Ht].
    rewrite !Ht, !astro_info_shape by apply element_truthy.
    exists (SYSTEM_PROMPT +:+ nl +:+ nl +:+ "【用户星盘信息】" +:+ nl +:+
            ("用户姓名：" +:+ n) +:+ nl +:+ ("星座：" +:+ c) +:+ nl +:+
            ("星座元素：" +:+ get_constellation_element c)),
           (birth_time_line bt +:+ tail).
    split; rewrite !append_assoc; reflexivity.
  - intros d. unfold birth_date_line. split.
    + intros ->. reflexivity.
    + intros Hd. apply truthy_true in Hd. now rewrite Hd.
Qed.

(** Two profiles that differ in the birth date only. *)
Lemma birth_date_changes_only_its_line_witness :
  exists before after,
    build_system_prompt (profile_of "Alex" "狮子" "1990-01-01" "08:00") =
      before +:+ birth_date_line "1990-01-01" +:+ after /\
    build_system_prompt (profile_of "Alex" "狮子" "" "08:00") =
      before +:+ birth_date_line "" +:+ after.
Proof.
  apply (proj1 (proj2 (birth_date_changes_only_its_line
                         (profile_of "Alex" "狮子" "1990-01-01" "08:00")
                         (profile_of "Alex" "狮子" "" "08:00")))).
  intros k Hk. unfold profile_of.
  rewrite !lookup_insert. repeat case_decide; congruence.
Defined.

(** C8 as stated fails: a profile whose name is present and empty gets
    an empty name slot, not the fallback. *)
Lemma empty_name_keeps_empty_slot :
  unnamed_profile !! "name" = Some "" /\
  contains "亲爱的朋友" (build_system_prompt unnamed_profile) = false /\
  In ("4. 用" +:+ dq +:+ "亲爱的" +:+ dq +:+ "来称呼用户，让对话更亲切。")
     (lines (build_system_prompt unnamed_profile)).
Proof.
  split; [vm_compute; reflexivity|].
  split; [vm_compute; reflexivity|].
  vm_compute. tauto.
Qed.

(* ================================================================= *)
(** ** Session state *)

Section Handlers.

Variable remote : Remote.
Variable client : option Client.

Implicit Types s : SessionState.

Lemma profile_of_lookup name c bd bt :
  profile_of name c bd bt !! "name" = Some name /\
  profile_of name c bd bt !! "constellation" = Some c /\
  profile_of name c bd bt !! "birth_date" = Some bd /\
  profile_of name c bd bt !! "birth_time" = Some bt.
Proof.
  unfold profile_of. repeat split;
    rewrite !lookup_insert; repeat case_decide; congruence.
Qed.

Lemma profile_of_chat_shown name c bd bt s :
  truthy c = true -> user_info s = profile_of name c bd bt ->
  chat_shown s = true.
Proof.
  intros Hc E. unfold chat_shown, dict_get_truthy. rewrite E.
  destruct (profile_of_lookup name c bd bt) as (_ & -> & _).
  rewrite Hc, andb_true_r. apply negb_true_iff, bool_decide_eq_false.
  unfold profile_of. apply insert_non_empty.
Qed.

Lemma on_confirm_accept name c bd bt s :
  truthy c = true ->
  on_confirm name c bd bt s =
  ({| user_info := profile_of name c bd bt;
      messages := [ {| role := system;
                       content := build_system_prompt
                                    (profile_of name c bd bt) |} ];
      system_prompt := Some (build_system_prompt (profile_of name c bd bt)) |},
   [EvRerun]).
Proof. unfold on_confirm. intros ->. reflexivity. Qed.

Lemma on_confirm_reject name c bd bt s :
  truthy c = false ->
  on_confirm name c bd bt s = (s, [EvError "请至少选择你的星座！"]).
Proof. unfold on_confirm. intros ->. reflexivity. Qed.

Lemma on_chat_state prompt s :
  fst (on_chat remote client prompt s) =
  {| user_info := user_info s;
     messages :=
       (messages s ++ [ {| role := user; content := prompt |} ]) ++
       [ {| role := assistant;
            content :=
              fst (get_ai_response remote client prompt
                     (messages s ++ [ {| role := user; content := prompt |} ])) |} ];
     system_prompt := system_prompt s |}.
Proof.
  unfold on_chat, then_, emit, ret.
  destruct (get_ai_response remote client prompt _) as [reply log].
  reflexivity.
Qed.

Lemma form_name_nonempty typed : form_name typed <> "".
Proof. unfold form_name. destruct typed; discriminate. Qed.

Lemma empty_not_chat_shown s : user_info s = ∅ -> chat_shown s = false.
Proof.
  intros E. unfold chat_shown. rewrite E.
  now rewrite bool_decide_eq_true_2 by reflexivity.
Qed.

Lemma run_consistent a s :
  consistent s -> consistent (fst (run remote client a s)).
Proof.
  intros I. destruct a as [typed c bd bt| |prompt]; simpl.
  - destruct (form_shown s); [|exact I].
    destruct (truthy c) eqn:Hc.
    + rewrite on_confirm_accept by assumption. right. simpl.
      exists (form_name typed), c, bd, bt, [].
      apply truthy_true in Hc.
      repeat split; [apply form_name_nonempty | assumption].
    + rewrite on_confirm_reject by assumption. exact I.
  - destruct (form_shown s); [exact I|]. left. simpl. auto.
  - destruct (chat_shown s) eqn:Hs; simpl; [|exact I].
    destruct (truthy prompt); [|exact I].
    rewrite on_chat_state.
    destruct I as [(E & _ & _)|(n & c & bd & bt & rest & Hn & Hc & E & Hm & Hp)].
    + rewrite (empty_not_chat_shown s E) in Hs. discriminate.
    + right. simpl. exists n, c, bd, bt. eexists.
      repeat split; try eassumption. rewrite Hm. reflexivity.
Qed.

Lemma reachable_consistent s : reachable remote client s -> consistent s.
Proof.
  induction 1 as [|a s _ IH _].
  - left. repeat split.
  - now apply run_consistent.
Qed.

(** While the chat is shown, the transcript starts with the system
    message. *)
Lemma reachable_system_head s :
  reachable remote client s -> chat_shown s = true ->
  messages s !! 0 =
  Some {| role := system; content := build_system_prompt (user_info s) |}.
Proof.
  intros R Hs.
  destruct (reachable_consistent s R)
    as [(E & _)|(n & c & bd & bt & rest & _ & _ & _ & -> & _)].
  - rewrite (empty_not_chat_shown s E) in Hs. discriminate.
  - reflexivity.
Qed.

(** The stored name is never empty. *)
Lemma reachable_name_nonempty s :
  reachable remote client s -> user_info s !! "name" <> Some "".
Proof.
  intros R.
  destruct (reachable_consistent s R)
    as [(E & _)|(n & c & bd & bt & rest & Hn & _ & E & _)]; rewrite E.
  - rewrite lookup_empty. discriminate.
  - destruct (profile_of_lookup n c bd bt) as (-> & _). congruence.
Qed.

Lemma run_sign_listed a s :
  offered a = true -> sign_listed s ->
  sign_listed (fst (run remote client a s)).
Proof.
  intros Ha I. destruct a as [typed c bd bt| |prompt]; cbn [run].
  - destruct (form_shown s); [|exact I].
    destruct (truthy c) eqn:Hc.
    + rewrite on_confirm_accept by assumption. intros c' Hc'.
      cbn [fst user_info] in Hc'.
      destruct (profile_of_lookup (form_name typed) c bd bt) as (_ & E & _).
      rewrite E in Hc'. injection Hc' as <-.
      unfold offered in Ha. apply str_in_In in Ha. destruct Ha as [<-|Ha].
      * discriminate.
      * exact Ha.
    + rewrite on_confirm_reject by assumption. exact I.
  - destruct (form_shown s); [exact I|]. intros c Hc.
    cbn [fst on_reset then_ emit ret user_info] in Hc.
    rewrite lookup_empty in Hc. discriminate.
  - destruct (chat_shown s && truthy prompt); [|exact I].
    rewrite on_chat_state. exact I.
Qed.

(** In a session of the application the stored sign is one of the
    twelve, so its classification succeeds. *)
Lemma reachable_sign_classified s :
  reachable remote client s -> chat_shown s = true ->
  classified (dict_get (user_info s) "constellation" "") = true.
Proof.
  intros R Hs.
  assert (L : sign_listed s).
  { clear Hs. induction R as [|a s _ IH Ha].
    - intros c Hc. vm_compute in Hc. discriminate.
    - now apply run_sign_listed. }
  apply classified_options. unfold dict_get.
  unfold chat_shown, dict_get_truthy in Hs.
  destruct (user_info s !! "constellation") as [c|] eqn:E.
  - simpl. now apply L.
  - now rewrite andb_false_r in Hs.
Qed.

End Handlers.

Section Turns.

Variable remote : Remote.
Variable client : option Client.

Implicit Types s : SessionState.

(** C5. Confirming with no sign selected leaves the session as it
    was, whatever the session, and shows the validation message. *)
Theorem confirm_without_sign (typed birth_date birth_time : string) s :
  on_confirm (form_name typed) "" birth_date birth_time s
    = (s, [EvError validation_message]) /\
  fst (run remote client (Confirm typed "" birth_date birth_time) s) = s /\
  (form_shown s = true ->
   run remote client (Confirm typed "" birth_date birth_time) s
     = (s, [EvError validation_message])).
Proof.
  split; [reflexivity|]. split.
  - simpl. destruct (form_shown s); reflexivity.
  - intros H. simpl. rewrite H. reflexivity.
Qed.

(** C6. Confirming a profile with a sign stores the four values of the
    form (the name typed or its fallback, the sign, the birth date, the
    birth time, and nothing else), builds the prompt from that profile,
    makes the transcript the single system message holding it, and
    stores the same text as [system_prompt]; from the empty state the
    transcript goes from no entry to that one entry, and the chat is
    drawn from then on. *)
Theorem confirm_with_sign (typed constellation birth_date birth_time : string) s :
  constellation <> "" ->
  form_shown s = true ->
  let profile :=
    profile_of (form_name typed) constellation birth_date birth_time in
  let s' :=
    fst (run remote client
           (Confirm typed constellation birth_date birth_time) s) in
  user_info s' = profile /\
  messages s' =
    [ {| role := system; content := build_system_prompt profile |} ] /\
  length (messages s') = 1 /\
  system_prompt s' = Some (build_system_prompt profile) /\
  messages fresh_session = [] /\
  form_shown fresh_session = true /\
  (user_info s' !! "name" = Some (form_name typed) /\
   user_info s' !! "constellation" = Some constellation /\
   user_info s' !! "birth_date" = Some birth_date /\
   user_info s' !! "birth_time" = Some birth_time /\
   forall k : string,
     k <> "name" -> k <> "constellation" -> k <> "birth_date" ->
     k <> "birth_time" -> user_info s' !! k = None) /\
  build_system_prompt (user_info s') =
    personalized_prompt
      (astro_info (form_name typed) constellation
         (get_constellation_element constellation) birth_date birth_time)
      constellation (get_constellation_element constellation)
      (form_name typed) /\
  chat_shown s' = true /\
  form_shown s' = false.
Proof.
  intros Hc Hf profile s'. apply truthy_true in Hc.
  assert (E : s' =
              {| user_info := profile;
                 messages :=
                   [ {| role := system;
                        content := build_system_prompt profile |} ];
                 system_prompt := Some (build_system_prompt profile) |}).
  { subst s'. cbn [run]. rewrite Hf.
    now rewrite on_confirm_accept by assumption. }
  clearbody s'. subst s'.
  destruct (profile_of_lookup (form_name typed) constellation birth_date
              birth_time) as (Ln & Lc & Ld & Lt).
  fold profile in Ln, Lc, Ld, Lt.
  pose proof (profile_of_chat_shown (form_name typed) constellation
                birth_date birth_time _ Hc
                (eq_refl : user_info
                             {| user_info := profile;
                                messages :=
                                  [ {| role := system;
                                       content := build_system_prompt profile |} ];
                                system_prompt :=
                                  Some (build_system_prompt profile) |}
                           = profile)) as Hs.
  cbn [user_info messages system_prompt length].
  do 6 (split; [reflexivity|]).
  split; [|split; [|split; [exact Hs|]]].
  - split; [exact Ln|]. split; [exact Lc|]. split; [exact Ld|].
    split; [exact Lt|].
    intros k H1 H2 H3 H4. unfold profile, profile_of.
    rewrite !lookup_insert_ne by congruence. apply lookup_empty.
  - unfold build_system_prompt, dict_get. rewrite Ln, Lc, Ld, Lt. reflexivity.
  - unfold form_shown, chat_shown in *.
    apply andb_true_iff in Hs as [H1 H2].
    apply negb_true_iff in H1. now rewrite H1, H2.
Qed.

(** C3. An accepted user turn appends the user message and then the
    assistant message holding the reply to the transcript that now ends
    with the user message: the length grows by two, every earlier
    entry stays where it was, and in a session of the application the
    entry at index 0 is the system message before and after. *)
Theorem chat_turn_appends (prompt : string) s :
  chat_shown s = true ->
  prompt <> "" ->
  let s' := fst (run remote client (Chat prompt) s) in
  let sent := messages s ++ [ {| role := user; content := prompt |} ] in
  let reply := fst (get_ai_response remote client prompt sent) in
  messages s' =
    messages s ++ [ {| role := user; content := prompt |};
                    {| role := assistant; content := reply |} ] /\
  length (messages s') = length (messages s) + 2 /\
  (forall i m, messages s !! i = Some m -> messages s' !! i = Some m) /\
  user_info s' = user_info s /\
  system_prompt s' = system_prompt s /\
  (reachable remote client s ->
   exists p,
     messages s !! 0 = Some {| role := system; content := p |} /\
     messages s' !! 0 = Some {| role := system; content := p |}).
Proof.
  intros Hs Hp s' sent reply. apply truthy_true in Hp.
  assert (E : messages s' =
              messages s ++ [ {| role := user; content := prompt |};
                              {| role := assistant; content := reply |} ]).
  { subst s' reply sent. simpl. rewrite Hs, Hp. simpl.
    rewrite on_chat_state. simpl. now rewrite <- app_assoc. }
  assert (K : forall i m, messages s !! i = Some m -> messages s' !! i = Some m).
  { intros i m H. rewrite E. now apply lookup_app_l_Some. }
  split; [exact E|]. split; [rewrite E, length_app; reflexivity|].
  split; [exact K|].
  split; [subst s'; simpl; rewrite Hs, Hp; simpl; now rewrite on_chat_state|].
  split; [subst s'; simpl; rewrite Hs, Hp; simpl; now rewrite on_chat_state|].
  intros R. exists (build_system_prompt (user_info s)).
  pose proof (reachable_system_head remote client s R Hs) as H0.
  split; [exact H0 | now apply K].
Qed.

(** C8, as the code has it. The prompt addresses the user by the name
    of the profile, with 朋友 standing in when the profile has no name
    entry; and the form hands on 朋友 when no name was typed, so the
    prompt built at confirmation never has an empty name. *)
Theorem name_fallback :
  (forall ui : gmap string string,
      exists pre,
        build_system_prompt ui =
        pre +:+ honorific_line (dict_get ui "name" "朋友")) /\
  (forall ui : gmap string string,
      ui !! "name" = None ->
      exists pre, build_system_prompt ui = pre +:+ honorific_line "朋友") /\
  (forall (typed constellation birth_date birth_time : string) s,
      form_shown s = true -> constellation <> "" ->
      form_name typed <> "" /\
      (typed = "" -> form_name typed = "朋友") /\
      exists pre,
        system_prompt
          (fst (run remote client
                  (Confirm typed constellation birth_date birth_time) s))
        = Some (pre +:+ honorific_line (form_name typed))).
Proof.
  split; [|split].
  - intros ui. apply prompt_ends_with_honorific.
  - intros ui H. destruct (prompt_ends_with_honorific ui) as [pre E].
    exists pre. rewrite E. unfold dict_get. now rewrite H.
  - intros typed c bd bt s Hf Hc. split; [|split].
    + unfold form_name. destruct typed; discriminate.
    + intros ->. reflexivity.
    + simpl. rewrite Hf. apply truthy_true in Hc.
      rewrite on_confirm_accept by assumption. simpl.
      destruct (prompt_ends_with_honorific
                  (profile_of (form_name typed) c bd bt)) as [pre E].
      exists pre. rewrite E. unfold dict_get.
      destruct (profile_of_lookup (form_name typed) c bd bt) as (-> & _).
      reflexivity.
Qed.

End Turns.

(** Confirming with no sign in a session that has just started. *)
Lemma confirm_without_sign_witness :
  run demo_remote demo_client (Confirm "Alex" "" "1990-01-01" "") fresh_session
  = (fresh_session, [EvError validation_message]).
Proof.
  apply (proj2 (proj2 (confirm_without_sign demo_remote demo_client
                         "Alex" "1990-01-01" "" fresh_session))).
  vm_compute. reflexivity.
Defined.

(** Confirming the sign 白羊 with no name typed, from the empty state. *)
Lemma confirm_with_sign_witness :
  messages (fst (run demo_remote demo_client (Confirm "" "白羊" "" "")
                   fresh_session))
  = [ {| role := system;
         content := build_system_prompt (profile_of "朋友" "白羊" "" "") |} ].
Proof.
  apply (confirm_with_sign demo_remote demo_client "" "白羊" "" "" fresh_session).
  - discriminate.
  - vm_compute. reflexivity.
Defined.

(** The scenario of the specification: after the profile (Alex, 狮子),
    one user text brings the transcript to three entries. *)
Lemma chat_turn_appends_witness :
  length (messages (fst (run demo_remote demo_client (Chat "我很焦虑")
                           confirmed_session)))
  = length (messages confirmed_session) + 2.
Proof.
  apply (chat_turn_appends demo_remote demo_client "我很焦虑" confirmed_session).
  - vm_compute. reflexivity.
  - discriminate.
Defined.

(** No name typed: the prompt stored at confirmation addresses 朋友. *)
Lemma name_fallback_witness :
  exists pre,
    system_prompt (fst (run demo_remote demo_client (Confirm "" "白羊" "" "")
                          fresh_session))
    = Some (pre +:+ honorific_line "朋友").
Proof.
  apply (proj2 (proj2 (name_fallback demo_remote demo_client))
           "" "白羊" "" "" fresh_session).
  - vm_compute. reflexivity.
  - discriminate.
Defined.

(* ================================================================= *)
(** ** Completion client *)

(** C4. Without a client the reply is the fixed configuration error,
    whatever the transcript, and nothing is sent to the network; and no
    client exists when no credential was resolved. *)
Theorem no_client_no_call (remote : Remote) (user_input : string)
    (transcript : list Message) :
  get_ai_response remote None user_input transcript
    = (configuration_error, []) /\
  (forall c r,
      ~ In (EvNetwork c r)
          (snd (get_ai_response remote None user_input transcript))) /\
  (forall w : world,
      get_api_key w = None ->
      client_of w = None /\
      get_ai_response remote (client_of w) user_input transcript
        = (configuration_error, [])).
Proof.
  split; [reflexivity|]. split.
  - intros c r H. exact H.
  - intros w H. unfold client_of. rewrite H. split; reflexivity.
Qed.

(** A world where nothing resolves: the reply is the configuration
    error and the log is empty. *)
Lemma no_client_no_call_witness :
  get_ai_response demo_remote (client_of world_text_group) "我很焦虑"
    (messages confirmed_session)
  = (configuration_error, []).
Proof.
  apply (proj2 (proj2 (no_client_no_call demo_remote "我很焦虑"
                         (messages confirmed_session)))
           world_text_group).
  vm_compute. reflexivity.
Defined.

(** C10. The reply, and what is sent to the network, do not depend on
    the [user_input] argument: only the transcript and the client
    count. *)
Theorem reply_ignores_user_input (remote : Remote) (client : option Client)
    (user_input1 user_input2 : string) (transcript : list Message) :
  get_ai_response remote client user_input1 transcript
  = get_ai_response remote client user_input2 transcript.
Proof. reflexivity. Qed.

(** With a client, a call sends the same request between one and three
    times, carrying the whole transcript, the fixed model name and no
    streaming. *)
Lemma send_log remote c r retries_left :
  forall n, exists k,
    1 <= k <= S retries_left /\
    snd (send remote c r n retries_left) = repeat (EvNetwork c r) k.
Proof.
  induction retries_left as [|left IH]; intros n; cbn [send]; unfold then_, emit.
  - exists 1. split; [lia|]. destruct (remote c r n); reflexivity.
  - destruct (remote c r n) as [o|d].
    + exists 1. split; [lia | reflexivity].
    + destruct (IH (S n)) as (k & Hk & E).
      exists (S k). split; [lia|].
      destruct (send remote c r (S n) left) as [o l]. simpl in *. now rewrite E.
Qed.

Lemma first_attempt_final remote c r o :
  remote c r 0 = Final o -> completions_create remote c r = (o, [EvNetwork c r]).
Proof.
  intros H. unfold completions_create, MAX_RETRIES. cbn [send].
  unfold then_, emit. now rewrite H.
Qed.

Lemma get_ai_response_with_client remote c user_input transcript :
  get_ai_response remote (Some c) user_input transcript =
  (reply_of (fst (completions_create remote c (request_for transcript))),
   snd (completions_create remote c (request_for transcript))).
Proof.
  unfold get_ai_response, then_, reply_of, request_for.
  destruct (completions_create remote c _) as [o l]. cbn [fst snd].
  destruct (first_choice o); cbn [ret]; now rewrite app_nil_r.
Qed.

Lemma requests_per_call remote c user_input transcript :
  exists k,
    1 <= k <= S MAX_RETRIES /\
    snd (get_ai_response remote (Some c) user_input transcript)
    = repeat (EvNetwork c (request_for transcript)) k.
Proof.
  rewrite get_ai_response_with_client. cbn [snd]. apply send_log.
Qed.

(* ================================================================= *)
(** ** Credential resolution *)

Lemma export_lookup top : forall env k,
  export_secrets top env !! k =
  match exported_at k top with
  | Some text => Some text
  | None => env !! k
  end.
Proof.
  induction top as [|[k' v] rest IH]; intros env k; [reflexivity|].
  cbn [export_secrets exported_at]. rewrite IH.
  destruct (exported_at k rest); [reflexivity|].
  destruct (String.eqb_spec k k') as [->|Hne].
  - destruct (exported v); [apply lookup_insert_eq | reflexivity].
  - destruct (exported v); [|reflexivity].
    apply lookup_insert_ne. congruence.
Qed.

Lemma export_twice top env :
  export_secrets top (export_secrets top env) = export_secrets top env.
Proof.
  apply map_eq. intros k. rewrite !export_lookup.
  now destruct (exported_at k top).
Qed.

Section Resolution.

Variable w : world.

Lemma secrets_lookup_found key env :
  secret_at w "deepseek" "api_key" = Some key ->
  fst (secrets_lookup w env) = Ok (Some key).
Proof.
  unfold secret_at, secrets_lookup, secrets_contains, secrets_getattr,
    secrets_parse, and_then, pure.
  destruct (st_has_secrets w); [|discriminate].
  destruct (st_secrets w) as [| |top]; try discriminate.
  cbn [py_contains py_getattr].
  destruct (assoc "deepseek" top) as [v|]; [|discriminate].
  rewrite bool_decide_eq_true_2 by eauto.
  destruct v as [| | | | | |entries]; try discriminate.
  cbn [py_contains py_getattr]. intros ->.
  rewrite bool_decide_eq_true_2 by eauto. reflexivity.
Qed.

Lemma secrets_lookup_not_found env :
  secret_at w "deepseek" "api_key" = None ->
  fst (secrets_lookup w env) = Ok None \/
  exists e, fst (secrets_lookup w env) = Raise e.
Proof.
  unfold secret_at, secrets_lookup, secrets_contains, secrets_getattr,
    secrets_parse, and_then, pure.
  destruct (st_has_secrets w); [|now left].
  destruct (st_secrets w) as [| |top]; [right; eauto..|].
  cbn [py_contains py_getattr].
  destruct (assoc "deepseek" top) as [v|].
  - rewrite bool_decide_eq_true_2 by eauto.
    destruct v as [s|z|b|r t|d|items|entries]; cbn [py_contains py_getattr];
      try (right; eauto; fail).
    + intros _. destruct (contains "api_key" s); [right; eauto | now left].
    + intros _. destruct (existsb _ items); [right; eauto | now left].
    + intros ->. rewrite bool_decide_eq_false_2; [now left|].
      intros [x Hx]. discriminate.
  - intros _. rewrite bool_decide_eq_false_2; [now left|].
    intros [x Hx]. discriminate.
Qed.

(** Whatever the [try] comes to, it leaves the environment of the
    process with the top-level values of a readable secrets file
    exported into it. *)
Lemma secrets_lookup_environ :
  snd (secrets_lookup w (environ w)) = environ_after_secrets w.
Proof.
  unfold environ_after_secrets, secrets_lookup, secrets_contains,
    secrets_getattr, secrets_parse, and_then, pure.
  destruct (st_has_secrets w); [|reflexivity].
  destruct (st_secrets w) as [| |top]; [reflexivity..|].
  cbn [py_contains py_getattr].
  destruct (bool_decide _); [|reflexivity].
  destruct (assoc "deepseek" top) as [v|];
    [|cbn [snd]; now rewrite ?export_twice].
  destruct (py_contains "api_key" v) as [[|]|e];
    try (cbn [snd]; now rewrite ?export_twice).
  destruct (py_getattr "api_key" v); cbn [snd]; now rewrite ?export_twice.
Qed.

Lemma get_api_key_not_found :
  secret_at w "deepseek" "api_key" = None ->
  get_api_key w = getenv_truthy (environ_after_secrets w) "DEEPSEEK_API_KEY".
Proof.
  intros H. unfold get_api_key. rewrite <- secrets_lookup_environ.
  destruct (secrets_lookup_not_found (environ w) H) as [E|[e E]];
    destruct (secrets_lookup w (environ w)) as [r env]; cbn [fst snd] in *;
    subst r; reflexivity.
Qed.

Lemma get_api_key_found key :
  secret_at w "deepseek" "api_key" = Some key -> get_api_key w = Some key.
Proof.
  intros H. unfold get_api_key.
  pose proof (secrets_lookup_found key (environ w) H) as E.
  destruct (secrets_lookup w (environ w)) as [r env]. cbn [fst] in E.
  now subst r.
Qed.

(** C9. The secret store is looked up first and its value at
    deepseek / api_key returned when there is one; an exception raised
    by that lookup is swallowed and the environment consulted; without
    a stored value the non-empty value [os.getenv] gives for
    DEEPSEEK_API_KEY is returned; with neither the result is absent. The
    environment consulted is that of the process, in which reading the
    secrets file has exported the file's top-level values. *)
Theorem credential_resolution :
  (forall key,
      secret_at w "deepseek" "api_key" = Some key ->
      get_api_key w = Some key) /\
  (forall e,
      fst (secrets_lookup w (environ w)) = Raise e ->
      get_api_key w
      = getenv_truthy (environ_after_secrets w) "DEEPSEEK_API_KEY") /\
  (forall k,
      secret_at w "deepseek" "api_key" = None ->
      environ_after_secrets w !! "DEEPSEEK_API_KEY" = Some k -> k <> "" ->
      get_api_key w = Some (TStr k)) /\
  (secret_at w "deepseek" "api_key" = None ->
   environ_after_secrets w !! "DEEPSEEK_API_KEY" = None \/
   environ_after_secrets w !! "DEEPSEEK_API_KEY" = Some "" ->
   get_api_key w = None) /\
  get_api_key w = resolve_credential_spec w /\
  snd (secrets_lookup w (environ w)) = environ_after_secrets w /\
  (st_has_secrets w = false \/ st_secrets w = SecretsMissing \/
   st_secrets w = SecretsMalformed ->
   environ_after_secrets w = environ w) /\
  (forall top k,
      st_has_secrets w = true -> st_secrets w = SecretsLoaded top ->
      environ_after_secrets w !! k =
      match exported_at k top with
      | Some text => Some text
      | None => environ w !! k
      end).
Proof.
  split; [exact get_api_key_found|]. split; [|split; [|split; [|split]]].
  - intros e H. unfold get_api_key. rewrite <- secrets_lookup_environ.
    destruct (secrets_lookup w (environ w)) as [r env]. cbn [fst snd] in *.
    now subst r.
  - intros k H E Hk. rewrite (get_api_key_not_found H).
    unfold getenv_truthy. rewrite E. apply truthy_true in Hk.
    now rewrite Hk.
  - intros H [E|E]; rewrite (get_api_key_not_found H);
      unfold getenv_truthy; now rewrite E.
  - unfold resolve_credential_spec.
    destruct (secret_at w "deepseek" "api_key") as [key|] eqn:H.
    + now apply get_api_key_found.
    + now rewrite (get_api_key_not_found H).
  - split; [exact secrets_lookup_environ|]. split.
    + unfold environ_after_secrets.
      intros [->|[->| ->]]; [reflexivity | | ];
        now destruct (st_has_secrets w).
    + intros top k Hs Hf. unfold environ_after_secrets.
      rewrite Hs, Hf. apply export_lookup.
Qed.

End Resolution.

(** A stored key wins over the environment. *)
Lemma credential_resolution_witness :
  get_api_key world_with_secret = Some (TStr "sk-file").
Proof.
  apply (proj1 (credential_resolution world_with_secret)).
  vm_compute. reflexivity.
Defined.

(** A missing secrets file raises inside the lookup; the environment
    value is returned. *)
Example missing_file_falls_back :
  fst (secrets_lookup world_env_only (environ world_env_only))
    = Raise FileNotFoundError /\
  get_api_key world_env_only = Some (TStr "sk-env").
Proof. split; vm_compute; reflexivity. Qed.

(** A [deepseek] entry that is a text containing the word passes the
    membership test, fails at the attribute access, and resolution ends
    absent for want of an environment value. *)
Example text_group_is_swallowed :
  fst (secrets_lookup world_text_group (environ world_text_group))
    = Raise AttributeError /\
  get_api_key world_text_group = None.
Proof. split; vm_compute; reflexivity. Qed.

(** A key at the top level of the secrets file, under the name of the
    environment variable: reading the file exports it, and resolution
    returns it though the process started without the variable. *)
Example top_level_key_is_exported :
  secret_at world_top_level_key "deepseek" "api_key" = None /\
  environ world_top_level_key !! "DEEPSEEK_API_KEY" = None /\
  environ_after_secrets world_top_level_key !! "DEEPSEEK_API_KEY"
    = Some "sk-top" /\
  get_api_key world_top_level_key = Some (TStr "sk-top").
Proof. repeat split; vm_compute; reflexivity. Qed.

(* ================================================================= *)
(** * Further properties *)

(* ================================================================= *)
(** ** Credential and client *)

(** X1. A key stored at deepseek / api_key is returned without a truth
    test: when it is empty (or otherwise false) it is still the resolved
    credential, the environment variable is not consulted, and no client
    is built. *)
Theorem stored_false_key_shadows_environment (w : world) (key : toml) :
  secret_at w "deepseek" "api_key" = Some key ->
  toml_truthy key = false ->
  get_api_key w = Some key /\ client_of w = None.
Proof.
  intros H F. unfold client_of.
  rewrite (get_api_key_found w key H). simpl. now rewrite F.
Qed.

(** An empty stored key, with a key in the environment. *)
Lemma stored_false_key_shadows_environment_witness :
  environ world_empty_secret !! "DEEPSEEK_API_KEY" = Some "sk-env" /\
  get_api_key world_empty_secret = Some (TStr "") /\
  client_of world_empty_secret = None.
Proof.
  split; [vm_compute; reflexivity|].
  apply (stored_false_key_shadows_environment world_empty_secret (TStr ""));
    vm_compute; reflexivity.
Defined.

(** X2. When the secret store holds nothing at deepseek / api_key, a
    client exists exactly when [os.getenv] finds a non-empty
    DEEPSEEK_API_KEY; it then carries that value as its key and the
    fixed base URL. The value found is that of the process, unless the
    secrets file was read and exports a top-level entry of that name,
    which then replaces it. *)
Theorem environment_key_gives_client (w : world) :
  secret_at w "deepseek" "api_key" = None ->
  (forall k,
      environ_after_secrets w !! "DEEPSEEK_API_KEY" = Some k -> k <> "" ->
      client_of w =
      Some {| client_api_key := TStr k;
              client_base_url := "https://api.deepseek.com" |}) /\
  (environ_after_secrets w !! "DEEPSEEK_API_KEY" = None \/
   environ_after_secrets w !! "DEEPSEEK_API_KEY" = Some "" ->
   client_of w = None) /\
  (environ_after_secrets w !! "DEEPSEEK_API_KEY"
     = environ w !! "DEEPSEEK_API_KEY" \/
   exists top text,
     st_has_secrets w = true /\ st_secrets w = SecretsLoaded top /\
     exported_at "DEEPSEEK_API_KEY" top = Some text /\
     environ_after_secrets w !! "DEEPSEEK_API_KEY" = Some text).
Proof.
  intros H. unfold client_of. rewrite (get_api_key_not_found w H).
  unfold getenv_truthy. split; [|split].
  - intros k E Hk. rewrite E. apply truthy_true in Hk. rewrite Hk.
    simpl. now rewrite Hk.
  - intros [E|E]; rewrite E; reflexivity.
  - unfold environ_after_secrets.
    destruct (st_has_secrets w); [|now left].
    destruct (st_secrets w) as [| |top]; [now left..|].
    rewrite export_lookup.
    destruct (exported_at "DEEPSEEK_API_KEY" top) as [text|] eqn:E;
      [right | now left].
    exists top, text. auto.
Qed.

(** No secrets file and the key in the environment; and the key at the
    top level of the secrets file with no variable set. *)
Lemma environment_key_gives_client_witness :
  client_of world_env_only =
    Some {| client_api_key := TStr "sk-env";
            client_base_url := "https://api.deepseek.com" |} /\
  client_of world_top_level_key =
    Some {| client_api_key := TStr "sk-top";
            client_base_url := "https://api.deepseek.com" |}.
Proof.
  split.
  - apply (proj1 (environment_key_gives_client world_env_only eq_refl)
             "sk-env").
    + reflexivity.
    + discriminate.
  - apply (proj1 (environment_key_gives_client world_top_level_key eq_refl)
             "sk-top").
    + reflexivity.
    + discriminate.
Defined.

(* ================================================================= *)
(** ** Completion client *)

(** X3. With a client, a call never fails and sends the same request
    (the transcript as given, the fixed model, no streaming) between one
    and three times, the client retrying twice at most: once when the
    first attempt ends the call, and then the reply is the first
    returned choice, unchanged, or the marked reply holding the text of
    the error, or the marked reply of the index error when no choice is
    returned; three times when every attempt fails in a way the client
    retries, and then the reply is the marked reply of the last error. *)
Theorem reply_by_outcome (remote : Remote) (c : Client) (user_input : string)
    (transcript : list Message) :
  let request := EvNetwork c (request_for transcript) in
  (exists k,
      1 <= k <= 3 /\
      snd (get_ai_response remote (Some c) user_input transcript)
      = repeat request k) /\
  (forall reply others,
      remote c (request_for transcript) 0
        = Final (Completed (reply :: others)) ->
      get_ai_response remote (Some c) user_input transcript
        = (reply, [request])) /\
  (forall description,
      remote c (request_for transcript) 0 = Final (Failed description) ->
      get_ai_response remote (Some c) user_input transcript
        = (failure_reply description, [request])) /\
  (remote c (request_for transcript) 0 = Final (Completed []) ->
   get_ai_response remote (Some c) user_input transcript
     = (failure_reply "list index out of range", [request])) /\
  (forall d0 o,
      remote c (request_for transcript) 0 = Retryable d0 ->
      remote c (request_for transcript) 1 = Final o ->
      get_ai_response remote (Some c) user_input transcript
        = (reply_of o, [request; request])) /\
  (forall d0 d1 d2,
      remote c (request_for transcript) 0 = Retryable d0 ->
      remote c (request_for transcript) 1 = Retryable d1 ->
      remote c (request_for transcript) 2 = Retryable d2 ->
      get_ai_response remote (Some c) user_input transcript
        = (failure_reply d2, [request; request; request])).
Proof.
  intros request. split; [apply requests_per_call|].
  rewrite get_ai_response_with_client.
  unfold completions_create, MAX_RETRIES. cbn [send]. unfold then_, emit, ret.
  repeat split; intros; rewrite ?H, ?H0, ?H1; reflexivity.
Qed.

(** The outcomes at concrete endpoints. *)
Lemma reply_by_outcome_witness :
  fst (get_ai_response talkative_remote (Some demo_handle) "我很焦虑" [])
    = "先深呼吸。" /\
  fst (get_ai_response failing_remote (Some demo_handle) "我很焦虑" [])
    = failure_reply "Insufficient Balance" /\
  fst (get_ai_response silent_remote (Some demo_handle) "我很焦虑" [])
    = failure_reply "list index out of range" /\
  length (snd (get_ai_response flaky_remote (Some demo_handle) "我很焦虑" []))
    = 2 /\
  get_ai_response down_remote (Some demo_handle) "我很焦虑" []
    = (failure_reply "Internal Server Error",
       [EvNetwork demo_handle (request_for []);
        EvNetwork demo_handle (request_for []);
        EvNetwork demo_handle (request_for [])]).
Proof.
  split; [|split; [|split; [|split]]].
  - rewrite (proj1 (proj2 (reply_by_outcome talkative_remote demo_handle
                             "我很焦虑" [])) "先深呼吸。" ["第二个回答"] eq_refl).
    reflexivity.
  - rewrite (proj1 (proj2 (proj2 (reply_by_outcome failing_remote demo_handle
                                    "我很焦虑" []))) _ eq_refl).
    reflexivity.
  - rewrite (proj1 (proj2 (proj2 (proj2 (reply_by_outcome silent_remote
                                           demo_handle "我很焦虑" []))))
               eq_refl).
    reflexivity.
  - rewrite (proj1 (proj2 (proj2 (proj2 (proj2 (reply_by_outcome flaky_remote
                                           demo_handle "我很焦虑" [])))))
               "Connection error." (Completed ["先深呼吸。"]) eq_refl eq_refl).
    reflexivity.
  - apply (proj2 (proj2 (proj2 (proj2 (proj2 (reply_by_outcome down_remote
                                         demo_handle "我很焦虑" [])))))
             "Internal Server Error" "Internal Server Error"
             "Internal Server Error"); reflexivity.
Defined.

(* ================================================================= *)
(** ** Session state *)

(** The log of a call: empty without a client; with one, the same
    request between one and three times. *)
Lemma response_log_cases remote client user_input transcript :
  (client = None /\
   snd (get_ai_response remote client user_input transcript) = []) \/
  (exists c k,
      client = Some c /\ 1 <= k <= S MAX_RETRIES /\
      snd (get_ai_response remote client user_input transcript)
      = repeat (EvNetwork c (request_for transcript)) k).
Proof.
  destruct client as [c|]; [right | left; split; reflexivity].
  destruct (requests_per_call remote c user_input transcript) as (k & Hk & E).
  exists c, k. auto.
Qed.

Lemma network_requests_repeat c r k :
  network_requests (repeat (EvNetwork c r) k) = repeat (c, r) k.
Proof. induction k as [|k IH]; [reflexivity|]. simpl. now rewrite IH. Qed.

Section Machine.

Variable remote : Remote.
Variable client : option Client.

Implicit Types s : SessionState.

Lemma on_chat_log prompt s :
  snd (on_chat remote client prompt s) =
  EvWrite user prompt ::
  snd (get_ai_response remote client prompt
         (messages s ++ [ {| role := user; content := prompt |} ])) ++
  [EvWrite assistant
     (fst (get_ai_response remote client prompt
             (messages s ++ [ {| role := user; content := prompt |} ])))].
Proof.
  unfold on_chat, then_, emit, ret.
  destruct (get_ai_response remote client prompt _) as [reply log].
  simpl. rewrite ?app_nil_r. reflexivity.
Qed.

Lemma form_shown_not_chat s : form_shown s = negb (chat_shown s).
Proof.
  unfold form_shown, chat_shown.
  now rewrite negb_andb, negb_involutive.
Qed.

(** X5. Reset, where it is offered, puts the session back to the state
    of a session that has just started (no profile, empty transcript, no
    prompt), whatever was stored; the form is then drawn again and the
    chat is not. *)
Theorem reset_returns_to_start s :
  on_reset s = (fresh_session, [EvRerun]) /\
  form_shown fresh_session = true /\
  chat_shown fresh_session = false /\
  (chat_shown s = true ->
   run remote client ResetProfile s = (fresh_session, [EvRerun]) /\
   forall a,
     run remote client a (fst (run remote client ResetProfile s))
     = run remote client a fresh_session).
Proof.
  split; [reflexivity|]. split; [reflexivity|]. split; [reflexivity|].
  intros H.
  assert (E : run remote client ResetProfile s = (fresh_session, [EvRerun])).
  { cbn [run]. rewrite form_shown_not_chat, H. reflexivity. }
  split; [exact E|]. intros a. now rewrite E.
Qed.

(** X6. The form and the chat are never drawn together, and a widget
    that is not drawn cannot fire: with a profile stored a confirmation
    changes nothing, and without one neither reset nor a chat text does
    anything, the network included; an empty chat text never does. *)
Theorem undrawn_widgets_do_nothing s :
  form_shown s = negb (chat_shown s) /\
  (chat_shown s = true ->
   forall typed constellation birth_date birth_time,
     run remote client (Confirm typed constellation birth_date birth_time) s
     = (s, [])) /\
  (form_shown s = true ->
   run remote client ResetProfile s = (s, []) /\
   forall prompt, run remote client (Chat prompt) s = (s, [])) /\
  run remote client (Chat "") s = (s, []).
Proof.
  split; [apply form_shown_not_chat|]. split; [|split].
  - intros H typed c bd bt. cbn [run].
    rewrite form_shown_not_chat, H. reflexivity.
  - intros H. split.
    + cbn [run]. rewrite H. reflexivity.
    + intros prompt. cbn [run]. rewrite form_shown_not_chat in H.
      apply negb_true_iff in H. rewrite H. reflexivity.
  - cbn [run]. rewrite andb_false_r. reflexivity.
Qed.

Lemma turns_snoc u a (l : list Message) :
  role u = user -> role a = assistant ->
  turns l = true -> turns (l ++ [u; a]) = true.
Proof.
  intros Hu Ha.
  assert (G : forall n (k : list Message),
             length k <= n -> turns k = true -> turns (k ++ [u; a]) = true).
  { induction n as [|n IH]; intros k Hk Ht.
    - destruct k; [|simpl in Hk; lia]. simpl. now rewrite Hu, Ha.
    - destruct k as [|x [|y k]]; simpl in *.
      + now rewrite Hu, Ha.
      + discriminate.
      + apply andb_true_iff in Ht as [Hxy Ht]. rewrite Hxy. simpl.
        apply IH; [lia | assumption]. }
  intros Ht. now apply (G (length l)).
Qed.

Lemma turns_even (l : list Message) :
  turns l = true -> exists n, length l = 2 * n.
Proof.
  assert (G : forall n (k : list Message),
             length k <= n -> turns k = true -> exists m, length k = 2 * m).
  { induction n as [|n IH]; intros k Hk Ht.
    - destruct k; [|simpl in Hk; lia]. now exists 0.
    - destruct k as [|x [|y k]]; simpl in *.
      + now exists 0.
      + discriminate.
      + apply andb_true_iff in Ht as [_ Ht].
        destruct (IH k) as [m Hm]; [lia | assumption |].
        exists (S m). lia. }
  intros Ht. now apply (G (length l)).
Qed.

Lemma turns_no_system (l : list Message) :
  turns l = true -> forall m, In m l -> role m <> system.
Proof.
  assert (G : forall n (k : list Message),
             length k <= n -> turns k = true ->
             forall m, In m k -> role m <> system).
  { induction n as [|n IH]; intros k Hk Ht m Hm.
    - destruct k; [contradiction | simpl in Hk; lia].
    - destruct k as [|x [|y k]]; simpl in *.
      + contradiction.
      + discriminate.
      + apply andb_true_iff in Ht as [Hxy Ht].
        apply andb_true_iff in Hxy as [Hx Hy].
        destruct Hm as [<-|[<-|Hm]].
        * destruct (role x); discriminate.
        * destruct (role y); discriminate.
        * apply (IH k); [lia | assumption | assumption]. }
  intros Ht. now apply (G (length l)).
Qed.

Lemma reachable_turns s :
  reachable remote client s ->
  messages s = [] \/
  exists rest,
    messages s =
    {| role := system; content := build_system_prompt (user_info s) |} :: rest /\
    turns rest = true.
Proof.
  induction 1 as [|a s R IH Ha]; [now left|].
  destruct a as [typed c bd bt| |prompt]; cbn [run].
  - destruct (form_shown s); [|exact IH].
    destruct (truthy c) eqn:Hc.
    + rewrite on_confirm_accept by assumption. right. now exists [].
    + rewrite on_confirm_reject by assumption. exact IH.
  - destruct (form_shown s); [exact IH|]. now left.
  - destruct (chat_shown s) eqn:Hs; [|exact IH].
    destruct (truthy prompt); [|exact IH]. cbn [andb].
    rewrite on_chat_state. right. cbn [fst messages user_info].
    pose proof (reachable_system_head remote client s R Hs) as H0.
    destruct IH as [E|(rest & E & Ht)]; [rewrite E in H0; discriminate|].
    exists (rest ++ [ {| role := user; content := prompt |};
                      {| role := assistant;
                         content :=
                           fst (get_ai_response remote client prompt
                                  (messages s ++
                                   [ {| role := user; content := prompt |} ])) |} ]).
    split.
    + rewrite E. cbn [app]. now rewrite <- app_assoc.
    + now apply turns_snoc.
Qed.

(** X7. The transcript of a session is empty while the form is drawn;
    while the chat is drawn it is the system message built from the
    stored profile followed by completed turns (user, assistant, user,
    assistant, ...): its length is odd and the system message occurs
    once, at the front. *)
Theorem transcript_shape s :
  reachable remote client s ->
  (form_shown s = true -> messages s = []) /\
  (chat_shown s = true ->
   exists rest n,
     messages s =
       {| role := system; content := build_system_prompt (user_info s) |}
         :: rest /\
     turns rest = true /\
     length (messages s) = 1 + 2 * n /\
     forall m, In m rest -> role m <> system).
Proof.
  intros R. split.
  - intros Hf. rewrite form_shown_not_chat in Hf. apply negb_true_iff in Hf.
    destruct (reachable_consistent remote client s R)
      as [(_ & E & _)|(n & c & bd & bt & rest & _ & Hc & E & _)];
      [exact E|].
    apply truthy_true in Hc.
    rewrite (profile_of_chat_shown n c bd bt s Hc E) in Hf. discriminate.
  - intros Hs.
    pose proof (reachable_system_head remote client s R Hs) as H0.
    destruct (reachable_turns s R) as [E|(rest & E & Ht)];
      [rewrite E in H0; discriminate|].
    destruct (turns_even rest Ht) as [n Hn].
    exists rest, n. split; [exact E|]. split; [exact Ht|]. split.
    + rewrite E. simpl. lia.
    + now apply turns_no_system.
Qed.

(** X8. A run sends a request exactly when a client exists and a
    non-empty chat text is submitted while the chat is drawn; the request
    then carries the transcript so far followed by the new user message,
    and in a session of the application that transcript starts with the
    system message built from the stored profile. *)
Theorem network_request_of_run a s c r :
  (In (EvNetwork c r) (snd (run remote client a s)) <->
   client = Some c /\
   exists prompt,
     a = Chat prompt /\ chat_shown s = true /\ prompt <> "" /\
     r = request_for (messages s ++ [ {| role := user; content := prompt |} ])) /\
  (reachable remote client s ->
   In (EvNetwork c r) (snd (run remote client a s)) ->
   req_messages r !! 0 =
     Some {| role := system; content := build_system_prompt (user_info s) |} /\
   exists prompt,
     last (req_messages r) = Some {| role := user; content := prompt |}).
Proof.
  assert (K : In (EvNetwork c r) (snd (run remote client a s)) <->
              client = Some c /\
              exists prompt,
                a = Chat prompt /\ chat_shown s = true /\ prompt <> "" /\
                r = request_for
                      (messages s ++ [ {| role := user; content := prompt |} ])).
  { split.
    - destruct a as [typed k bd bt| |prompt]; cbn [run].
      + destruct (form_shown s); [|intros []].
        unfold on_confirm. destruct (truthy k); simpl; intros [H|[]];
          discriminate.
      + destruct (form_shown s); simpl; [intros []|intros [H|[]]; discriminate].
      + destruct (chat_shown s) eqn:Hs; [|intros []].
        destruct (truthy prompt) eqn:Hp; [|intros []]. cbn [andb].
        rewrite on_chat_log. intros [H|H]; [discriminate|].
        apply in_app_or in H as [H|[H|[]]]; [|discriminate].
        destruct (response_log_cases remote client prompt
                    (messages s ++ [ {| role := user; content := prompt |} ]))
          as [(_ & L)|(c' & n & Hc & _ & L)]; rewrite L in H; [destruct H|].
        apply repeat_spec in H. injection H as -> ->. split; [exact Hc|].
        exists prompt. apply truthy_true in Hp. repeat split. exact Hp.
    - intros (Hc & prompt & -> & Hs & Hp & ->). cbn [run].
      apply truthy_true in Hp. rewrite Hs, Hp. cbn [andb].
      rewrite on_chat_log.
      destruct (response_log_cases remote client prompt
                  (messages s ++ [ {| role := user; content := prompt |} ]))
        as [(Hn & _)|(c' & n & Hc' & Hn & L)]; [congruence|].
      rewrite L. assert (c' = c) as -> by congruence.
      right. apply in_or_app. left.
      destruct n as [|n]; [lia | now left]. }
  split; [exact K|].
  intros R H. apply K in H as (_ & prompt & _ & Hs & _ & ->).
  cbn [request_for req_messages]. split.
  - apply lookup_app_l_Some.
    now apply (reachable_system_head remote client).
  - exists prompt. apply last_snoc.
Qed.

(** X9. While the chat is drawn, the stored profile is the one built at
    confirmation: its name is not empty, its sign is one of the twelve
    options, so that the classifier finds an element for it, and
    [system_prompt] and the first transcript entry hold the prompt built
    from it; while the form is drawn nothing is stored. *)
Theorem stored_profile_is_classified s :
  reachable remote client s ->
  (chat_shown s = true ->
   exists name sign birth_date birth_time,
     user_info s = profile_of name sign birth_date birth_time /\
     name <> "" /\
     In sign constellation_options /\
     get_constellation_element sign <> "未知元素" /\
     system_prompt s = Some (build_system_prompt (user_info s)) /\
     messages s !! 0 =
       Some {| role := system; content := build_system_prompt (user_info s) |}) /\
  (form_shown s = true ->
   user_info s = ∅ /\ messages s = [] /\ system_prompt s = None).
Proof.
  intros R. split.
  - intros Hs.
    pose proof (reachable_sign_classified remote client s R Hs) as Hc.
    pose proof (reachable_system_head remote client s R Hs) as H0.
    destruct (reachable_consistent remote client s R)
      as [(E & _)|(n & c & bd & bt & rest & Hn & _ & E & _ & Hp)].
    + rewrite (empty_not_chat_shown s E) in Hs. discriminate.
    + exists n, c, bd, bt. unfold dict_get in Hc. rewrite E in Hc.
      destruct (profile_of_lookup n c bd bt) as (_ & L & _).
      rewrite L in Hc. cbn [default] in Hc.
      split; [exact E|]. split; [exact Hn|].
      split; [now apply classified_options|]. split.
      * unfold classified in Hc. apply negb_true_iff in Hc.
        now apply String.eqb_neq in Hc.
      * split; [exact Hp | exact H0].
  - intros Hf. rewrite form_shown_not_chat in Hf. apply negb_true_iff in Hf.
    destruct (reachable_consistent remote client s R)
      as [I|(n & c & bd & bt & rest & _ & Hc & E & _)]; [exact I|].
    apply truthy_true in Hc.
    rewrite (profile_of_chat_shown n c bd bt s Hc E) in Hf. discriminate.
Qed.

Lemma run_chat_accepted prompt s :
  chat_shown s = true -> prompt <> "" ->
  run remote client (Chat prompt) s = on_chat remote client prompt s.
Proof.
  intros Hs Hp. apply truthy_true in Hp. cbn [run]. now rewrite Hs, Hp.
Qed.

Lemma network_requests_app l1 l2 :
  network_requests (l1 ++ l2) = network_requests l1 ++ network_requests l2.
Proof.
  induction l1 as [|e l1 IH]; [reflexivity|].
  destruct e; simpl; now rewrite IH.
Qed.

(** X10. A series of accepted chat texts keeps the profile and the
    prompt, keeps the transcript it started from as a prefix and adds
    two entries per text; without a client it sends nothing, and with
    one it sends at least one and at most three requests per text,
    exactly one per text when every first attempt ends its call. *)
Theorem chat_turns_accumulate (prompts : list string) s :
  chat_shown s = true ->
  Forall (fun p => p <> "") prompts ->
  let r := run_many remote client (map Chat prompts) s in
  let sent := length (network_requests (snd r)) in
  user_info (fst r) = user_info s /\
  system_prompt (fst r) = system_prompt s /\
  (exists added,
      messages (fst r) = messages s ++ added /\
      length added = 2 * length prompts) /\
  (client = None -> sent = 0) /\
  (client <> None -> length prompts <= sent <= 3 * length prompts) /\
  (client <> None ->
   (forall c request, exists o, remote c request 0 = Final o) ->
   sent = length prompts).
Proof.
  intros Hs Hp. revert s Hs.
  induction Hp as [|p ps Hp _ IH]; intros s Hs.
  - cbn. repeat split; try lia.
    exists []. now rewrite app_nil_r.
  - cbn [map run_many]. rewrite (run_chat_accepted p s Hs Hp).
    unfold then_.
    destruct (on_chat remote client p s) as [s1 l1] eqn:E1.
    pose proof (on_chat_state remote client p s) as Es.
    pose proof (on_chat_log p s) as El.
    rewrite E1 in Es, El. cbn [fst snd] in Es, El.
    assert (Hs1 : chat_shown s1 = true).
    { rewrite Es. unfold chat_shown in *. exact Hs. }
    destruct (run_many remote client (map Chat ps) s1) as [s2 l2] eqn:E2.
    specialize (IH s1 Hs1). rewrite E2 in IH. cbn [fst snd] in IH |- *.
    cbn zeta in IH |- *.
    destruct IH as (Hu & Hq & (added & Hm & Hl) & N0 & N1 & N2).
    split; [rewrite Hu, Es; reflexivity|].
    split; [rewrite Hq, Es; reflexivity|]. split.
    { eexists. split.
      - rewrite Hm, Es. cbn [messages]. rewrite <- !app_assoc. reflexivity.
      - rewrite !length_app, Hl. simpl. lia. }
    rewrite network_requests_app, length_app, El.
    cbn [network_requests]. rewrite network_requests_app.
    cbn [network_requests]. rewrite app_nil_r.
    destruct (response_log_cases remote client p
                (messages s ++ [ {| role := user; content := p |} ]))
      as [(Hc & L)|(c & k & Hc & Hk & L)]; rewrite L.
    + split; [intros _; cbn; now apply N0|].
      split; intros Hn; congruence.
    + rewrite network_requests_repeat, repeat_length.
      unfold MAX_RETRIES in Hk. cbn [length].
      split; [congruence|]. split.
      * intros Hn. specialize (N1 Hn). lia.
      * intros Hn Hf. rewrite (N2 Hn Hf).
        destruct (Hf c (request_for
                          (messages s ++ [ {| role := user; content := p |} ])))
          as [o Ho].
        pose proof (get_ai_response_with_client remote c p
                      (messages s ++ [ {| role := user; content := p |} ]))
          as G.
        rewrite (first_attempt_final remote c _ o Ho) in G.
        rewrite <- Hc in G. rewrite G in L. cbn [snd] in L.
        destruct k as [|[|k]]; [discriminate | reflexivity | discriminate].
Qed.

End Machine.

Lemma confirmed_session_reachable :
  reachable demo_remote demo_client confirmed_session.
Proof.
  exact (reach_run demo_remote demo_client (Confirm "Alex" "狮子" "" "")
           fresh_session (reach_fresh demo_remote demo_client) eq_refl).
Defined.

Lemma session_after_one_turn_reachable :
  reachable demo_remote demo_client session_after_one_turn.
Proof.
  exact (reach_run demo_remote demo_client (Chat "我很焦虑")
           confirmed_session confirmed_session_reachable eq_refl).
Defined.

(** Reset after a profile was confirmed. *)
Lemma reset_returns_to_start_witness :
  run demo_remote demo_client ResetProfile confirmed_session
  = (fresh_session, [EvRerun]).
Proof.
  apply (proj2 (proj2 (proj2 (reset_returns_to_start demo_remote demo_client
                                confirmed_session)))).
  vm_compute. reflexivity.
Defined.

(** A second confirmation after the first, and a chat text before any. *)
Lemma undrawn_widgets_do_nothing_witness :
  run demo_remote demo_client (Confirm "Sam" "双鱼" "" "") confirmed_session
    = (confirmed_session, []) /\
  run demo_remote demo_client (Chat "我很焦虑") fresh_session
    = (fresh_session, []).
Proof.
  split.
  - apply (proj1 (proj2 (undrawn_widgets_do_nothing demo_remote demo_client
                           confirmed_session))).
    vm_compute. reflexivity.
  - apply (proj1 (proj2 (proj2 (undrawn_widgets_do_nothing demo_remote
                                  demo_client fresh_session)))).
    vm_compute. reflexivity.
Defined.

(** The transcript after the profile (Alex, 狮子) and one user text. *)
Lemma transcript_shape_witness :
  exists rest n,
    messages session_after_one_turn =
      {| role := system;
         content := build_system_prompt (user_info session_after_one_turn) |}
        :: rest /\
    turns rest = true /\
    length (messages session_after_one_turn) = 1 + 2 * n /\
    forall m, In m rest -> role m <> system.
Proof.
  apply (proj2 (transcript_shape demo_remote demo_client
                  session_after_one_turn session_after_one_turn_reachable)).
  vm_compute. reflexivity.
Defined.

(** The request of the first user text after the profile (Alex, 狮子). *)
Lemma network_request_of_run_witness :
  req_messages
    (request_for (messages confirmed_session ++
                  [ {| role := user; content := "我很焦虑" |} ])) !! 0
  = Some {| role := system;
            content := build_system_prompt (user_info confirmed_session) |} /\
  exists prompt,
    last (req_messages
            (request_for (messages confirmed_session ++
                          [ {| role := user; content := "我很焦虑" |} ])))
    = Some {| role := user; content := prompt |}.
Proof.
  apply (proj2 (network_request_of_run demo_remote demo_client
                  (Chat "我很焦虑") confirmed_session demo_handle
                  (request_for (messages confirmed_session ++
                                [ {| role := user; content := "我很焦虑" |} ])))
           confirmed_session_reachable).
  vm_compute. right. left. reflexivity.
Defined.

(** The profile stored after confirming (Alex, 狮子). *)
Lemma stored_profile_is_classified_witness :
  exists name sign birth_date birth_time,
    user_info confirmed_session = profile_of name sign birth_date birth_time /\
    name <> "" /\
    In sign constellation_options /\
    get_constellation_element sign <> "未知元素" /\
    system_prompt confirmed_session
      = Some (build_system_prompt (user_info confirmed_session)) /\
    messages confirmed_session !! 0 =
      Some {| role := system;
              content := build_system_prompt (user_info confirmed_session) |}.
Proof.
  apply (proj1 (stored_profile_is_classified demo_remote demo_client
                  confirmed_session confirmed_session_reachable)).
  vm_compute. reflexivity.
Defined.

(** Two user texts after the profile: two requests when the endpoint
    answers at once. *)
Lemma chat_turns_accumulate_witness :
  length (network_requests
            (snd (run_many demo_remote demo_client
                    (map Chat ["我很焦虑"; "谢谢你"]) confirmed_session)))
  = 2.
Proof.
  apply (chat_turns_accumulate demo_remote demo_client ["我很焦虑"; "谢谢你"]
           confirmed_session).
  - vm_compute. reflexivity.
  - repeat constructor; discriminate.
  - discriminate.
  - intros c request. eexists. reflexivity.
Defined.

(* ================================================================= *)
(** ** Prompt builder *)

Lemma personalized_prompt_parts block c e n :
  personalized_prompt block c e n =
  SYSTEM_PROMPT +:+ nl +:+ nl +:+ "【用户星盘信息】" +:+ nl +:+
  block +:+ requirements c e n.
Proof. reflexivity. Qed.

Lemma append_inj_l (a x y : string) : a +:+ x = a +:+ y -> x = y.
Proof.
  induction a as [|c a IH]; [trivial|].
  rewrite !append_cons. intros [= H]. now apply IH.
Qed.

Lemma falsy_empty (s : string) : truthy s = false -> s = "".
Proof. destruct s; [reflexivity | discriminate]. Qed.

(** Two texts that agree and each start with a line: the lines agree
    and so do the remainders. *)
Lemma first_line_unique (a b x y : string) :
  single_line a = true -> single_line b = true ->
  a +:+ nl +:+ x = b +:+ nl +:+ y -> a = b /\ x = y.
Proof.
  revert b. induction a as [|c a IH]; intros [|d b] Ha Hb H.
  - injection H as ->. now split.
  - exfalso. rewrite append_cons in H. injection H as <- _.
    simpl in Hb. discriminate.
  - exfalso. rewrite append_cons in H. injection H as -> _.
    simpl in Ha. discriminate.
  - rewrite !append_cons in H. injection H as -> H.
    simpl in Ha, Hb. apply andb_true_iff in Ha as [_ Ha].
    apply andb_true_iff in Hb as [_ Hb].
    destruct (IH b Ha Hb H) as [-> ->]. now split.
Qed.

Lemma requirements_head c e n :
  exists r, requirements c e n = nl +:+ nl +:+ "【" +:+ r.
Proof. eexists. unfold requirements. reflexivity. Qed.

Lemma optional_lines_unique bd1 bt1 bd2 bt2 r :
  single_line bd1 = true -> single_line bt1 = true ->
  single_line bd2 = true -> single_line bt2 = true ->
  birth_date_line bd1 +:+ birth_time_line bt1 +:+ nl +:+ nl +:+ "【" +:+ r =
  birth_date_line bd2 +:+ birth_time_line bt2 +:+ nl +:+ nl +:+ "【" +:+ r ->
  bd1 = bd2 /\ bt1 = bt2.
Proof.
  intros Hd1 Ht1 Hd2 Ht2.
  unfold birth_date_line, birth_time_line.
  destruct (truthy bd1) eqn:D1, (truthy bd2) eqn:D2,
    (truthy bt1) eqn:T1, (truthy bt2) eqn:T2;
    rewrite ?append_assoc, ?append_empty_l; intros H;
    try (apply falsy_empty in D1; subst bd1);
    try (apply falsy_empty in D2; subst bd2);
    try (apply falsy_empty in T1; subst bt1);
    try (apply falsy_empty in T2; subst bt2).
  all: apply append_inj_l in H.
  all: try (exfalso; simpl in H; discriminate H).
  all: try (apply append_inj_l, first_line_unique in H as [-> H];
            [|assumption|assumption]).
  all: try (exfalso; simpl in H; discriminate H).
  all: try (apply append_inj_l, first_line_unique in H as [-> H];
            [|assumption|assumption]).
  all: split; reflexivity.
Qed.

(** X11. The prompt reads the profile through four values only (name,
    sign, birth date, birth time, with 朋友 and the empty text standing
    in for missing keys): profiles that agree on them give the same
    prompt, any other key being ignored; and when the values hold no
    line break, different values give different prompts. *)
Theorem prompt_determines_profile (ui1 ui2 : gmap string string) :
  (profile_fields ui1 = profile_fields ui2 ->
   build_system_prompt ui1 = build_system_prompt ui2) /\
  (single_line_fields ui1 = true -> single_line_fields ui2 = true ->
   build_system_prompt ui1 = build_system_prompt ui2 ->
   profile_fields ui1 = profile_fields ui2).
Proof.
  unfold single_line_fields, profile_fields, build_system_prompt.
  set (n1 := dict_get ui1 "name" "朋友"). set (n2 := dict_get ui2 "name" "朋友").
  set (c1 := dict_get ui1 "constellation" "").
  set (c2 := dict_get ui2 "constellation" "").
  set (d1 := dict_get ui1 "birth_date" ""). set (d2 := dict_get ui2 "birth_date" "").
  set (t1 := dict_get ui1 "birth_time" ""). set (t2 := dict_get ui2 "birth_time" "").
  split; [intros [= -> -> -> ->]; reflexivity|].
  intros S1 S2.
  apply andb_true_iff in S1 as [S1 St1]. apply andb_true_iff in S1 as [S1 Sd1].
  apply andb_true_iff in S1 as [Sn1 Sc1].
  apply andb_true_iff in S2 as [S2 St2]. apply andb_true_iff in S2 as [S2 Sd2].
  apply andb_true_iff in S2 as [Sn2 Sc2].
  rewrite !personalized_prompt_parts.
  rewrite !astro_info_shape by apply element_truthy.
  intros H. do 5 apply append_inj_l in H.
  rewrite !append_assoc in H.
  apply append_inj_l, first_line_unique in H as [-> H]; [|assumption|assumption].
  apply append_inj_l, first_line_unique in H as [-> H]; [|assumption|assumption].
  do 2 apply append_inj_l in H.
  destruct (requirements_head c2 (get_constellation_element c2) n2) as [r Hr].
  rewrite Hr in H.
  apply optional_lines_unique in H as [-> ->]; try assumption. reflexivity.
Qed.

(** A key the builder does not read changes nothing; a different birth
    time changes the prompt. *)
Lemma prompt_determines_profile_witness :
  build_system_prompt (<["mood" := "calm"]> (profile_of "Alex" "狮子" "" ""))
    = build_system_prompt (profile_of "Alex" "狮子" "" "") /\
  (build_system_prompt (profile_of "Alex" "狮子" "" "08:00")
     = build_system_prompt (profile_of "Alex" "狮子" "" "") ->
   profile_fields (profile_of "Alex" "狮子" "" "08:00")
     = profile_fields (profile_of "Alex" "狮子" "" "")).
Proof.
  split.
  - apply (proj1 (prompt_determines_profile
                    (<["mood" := "calm"]> (profile_of "Alex" "狮子" "" ""))
                    (profile_of "Alex" "狮子" "" ""))).
    vm_compute. reflexivity.
  - apply (proj2 (prompt_determines_profile
                    (profile_of "Alex" "狮子" "" "08:00")
                    (profile_of "Alex" "狮子" "" ""))).
    + vm_compute. reflexivity.
    + vm_compute. reflexivity.
Defined.

(** X12. Two profiles that differ only in [birth_time] give prompts that
    share everything before and everything after the birth-time line;
    that line is there iff the field is not empty. *)
Theorem birth_time_changes_only_its_line (ui1 ui2 : gmap string string) :
  ((forall k : string, k <> "birth_time" -> ui1 !! k = ui2 !! k) ->
   exists before after,
     build_system_prompt ui1 =
       before +:+ birth_time_line (dict_get ui1 "birth_time" "") +:+ after /\
     build_system_prompt ui2 =
       before +:+ birth_time_line (dict_get ui2 "birth_time" "") +:+ after) /\
  (forall t : string,
      (t = "" -> birth_time_line t = "") /\
      (t <> "" -> birth_time_line t = nl +:+ "出生时间：" +:+ t)).
Proof.
  split.
  - intros H.
    assert (G : forall k dflt, k <> "birth_time" ->
                dict_get ui1 k dflt = dict_get ui2 k dflt).
    { intros k dflt Hk. unfold dict_get. now rewrite (H k Hk). }
    unfold build_system_prompt.
    rewrite <- (G "name" "朋友"), <- (G "constellation" ""),
      <- (G "birth_date" "") by discriminate.
    set (n := dict_get ui1 "name" "朋友").
    set (c := dict_get ui1 "constellation" "").
    set (bd := dict_get ui1 "birth_date" "").
    rewrite !personalized_prompt_parts, !astro_info_shape
      by apply element_truthy.
    exists (SYSTEM_PROMPT +:+ nl +:+ nl +:+ "【用户星盘信息】" +:+ nl +:+
            ("用户姓名：" +:+ n) +:+ nl +:+ ("星座：" +:+ c) +:+ nl +:+
            ("星座元素：" +:+ get_constellation_element c) +:+
            birth_date_line bd),
           (requirements c (get_constellation_element c) n).
    split; rewrite !append_assoc; reflexivity.
  - intros t. unfold birth_time_line. split.
    + intros ->. reflexivity.
    + intros Ht. apply truthy_true in Ht. now rewrite Ht.
Qed.

(** Two profiles that differ in the birth time only. *)
Lemma birth_time_changes_only_its_line_witness :
  exists before after,
    build_system_prompt (profile_of "Alex" "狮子" "1990-01-01" "08:00") =
      before +:+ birth_time_line "08:00" +:+ after /\
    build_system_prompt (profile_of "Alex" "狮子" "1990-01-01" "") =
      before +:+ birth_time_line "" +:+ after.
Proof.
  apply (proj1 (birth_time_changes_only_its_line
                  (profile_of "Alex" "狮子" "1990-01-01" "08:00")
                  (profile_of "Alex" "狮子" "1990-01-01" ""))).
  intros k Hk. unfold profile_of.
  rewrite !lookup_insert. repeat case_decide; congruence.
Defined.

(* ================================================================= *)
(** ** The page *)

Lemma init_as_raw s : init_session_state (as_raw s) = s.
Proof. destruct s; reflexivity. Qed.

Lemma form_shown_no_sign s :
  form_shown s = true -> dict_get_truthy (user_info s) "constellation" = false.
Proof.
  unfold form_shown. intros H. apply orb_true_iff in H as [H|H].
  - apply bool_decide_eq_true in H. unfold dict_get_truthy. rewrite H.
    now rewrite lookup_empty.
  - now apply negb_true_iff in H.
Qed.

Lemma selectbox_index_form s :
  form_shown s = true -> selectbox_index (user_info s) = Some 0.
Proof.
  intros H. unfold selectbox_index. now rewrite (form_shown_no_sign s H).
Qed.

Lemma calls_app p q : calls (p ++ q) = calls p ++ calls q.
Proof.
  induction p as [|[a w] p IH]; [reflexivity|].
  destruct w; simpl; now rewrite IH.
Qed.

Lemma calls_shown (where_ : area) log :
  calls (map (pair where_) (map shown log)) = network_requests log.
Proof.
  induction log as [|e log IH]; [reflexivity|].
  destruct e as [c r|m|who t|]; simpl; try now rewrite IH.
  destruct who; simpl; now rewrite IH.
Qed.

Lemma calls_history (where_ : area) l :
  calls (map (pair where_) (history l)) = [].
Proof.
  induction l as [|m l IH]; [reflexivity|].
  simpl. destruct (role m); simpl; exact IH.
Qed.

Lemma calls_summary (where_ : area) ui :
  calls (map (pair where_) (summary_widgets ui)) = [].
Proof.
  unfold summary_widgets.
  destruct (dict_get_truthy ui "birth_date"), (dict_get_truthy ui "birth_time");
    reflexivity.
Qed.

Lemma calls_welcome (where_ : area) s :
  calls (map (pair where_) (welcome s)) = [].
Proof. unfold welcome. destruct (Nat.eqb _ _); reflexivity. Qed.

Section Script.

Variable key : option toml.
Variable remote : Remote.
Variable client : option Client.
Hypothesis key_ok : credential_truthy key = true.

Lemma chat_turn_on_chat prompt s :
  fst (chat_turn remote client prompt s) = fst (on_chat remote client prompt s) /\
  calls (map (pair Main) (snd (chat_turn remote client prompt s)))
  = network_requests (snd (on_chat remote client prompt s)).
Proof.
  unfold chat_turn, on_chat, then_, emit, ret.
  destruct (get_ai_response remote client prompt _) as [reply log].
  split; [reflexivity|]. cbn [snd fst app map calls].
  rewrite map_app, calls_app, calls_shown. cbn [network_requests map calls].
  rewrite network_requests_app. cbn [network_requests].
  now rewrite !app_nil_r.
Qed.

Lemma sidebar_plain s :
  fst (sidebar None s) = (s, snd (fst (sidebar None s))) /\
  snd (sidebar None s) = Continue.
Proof.
  unfold sidebar. destruct (form_shown s) eqn:F.
  - rewrite (selectbox_index_form s F). split; reflexivity.
  - split; reflexivity.
Qed.

Lemma main_area_plain s : fst (main_area remote client None s) = s.
Proof. unfold main_area. destruct (chat_shown s); reflexivity. Qed.

Lemma script_plain s :
  script key remote client None (as_raw s) =
  (s,
   page_top ++ map (pair Sidebar) (snd (fst (sidebar None s)))
   ++ map (pair Main) (snd (main_area remote client None s)),
   Continue).
Proof.
  unfold script. rewrite init_as_raw, key_ok. cbn [negb].
  destruct (sidebar_plain s) as [E1 E2].
  destruct (sidebar None s) as [[s1 side] fl]. cbn [fst snd] in *.
  injection E1 as ->. subst fl.
  pose proof (main_area_plain s) as E3.
  destruct (main_area remote client None s) as [s2 body]. cbn [fst snd] in *.
  subst s2. reflexivity.
Qed.

Lemma script_unfold input s :
  script key remote client input (as_raw s) =
  let '(s1, side, fl) := sidebar input s in
  match fl with
  | Continue =>
      let '(s2, body) := main_area remote client input s1 in
      (s2, page_top ++ map (pair Sidebar) side ++ map (pair Main) body, Continue)
  | _ => (s1, page_top ++ map (pair Sidebar) side, fl)
  end.
Proof. unfold script. rewrite init_as_raw, key_ok. reflexivity. Qed.

Lemma chat_shown_form s : chat_shown s = negb (form_shown s).
Proof.
  unfold form_shown, chat_shown.
  now rewrite negb_orb, negb_involutive.
Qed.

Ltac calls_norm :=
  unfold page_top;
  repeat (rewrite ?calls_app, ?map_app; cbn [map calls app]);
  rewrite ?calls_summary, ?calls_welcome, ?calls_history;
  cbn [app].

(** X14. With a key configured, what the whole script does on a click
    or a submitted text is what [run] says: the session it leaves (after
    the rerun, when one is asked for) is the one [run] gives, the
    requests it sends are those of [run], and the run never ends with an
    uncaught exception. *)
Theorem script_follows_run a s :
  fst (interact key remote client a (as_raw s)) = fst (run remote client a s) /\
  calls (snd (fst (script key remote client (Some a) (as_raw s))))
    = network_requests (snd (run remote client a s)) /\
  snd (script key remote client (Some a) (as_raw s)) <> Crashed.
Proof.
  unfold interact. rewrite (script_unfold (Some a)).
  unfold sidebar.
  destruct (form_shown s) eqn:F; cbn [negb].
  - rewrite (selectbox_index_form s F).
    destruct a as [typed c bd bt| |prompt]; cbn [run]; rewrite ?F.
    + destruct (truthy c) eqn:Hc.
      * rewrite on_confirm_accept by assumption. cbn [flow_of existsb map orb].
        rewrite script_plain. cbn [fst snd]. split; [reflexivity|].
        split; [reflexivity | discriminate].
      * rewrite on_confirm_reject by assumption. cbn [flow_of existsb map orb].
        unfold main_area. rewrite chat_shown_form, F. cbn [negb fst snd].
        split; [reflexivity|]. split; [reflexivity | discriminate].
    + unfold main_area. rewrite chat_shown_form, F. cbn [negb fst snd].
      split; [reflexivity|]. split; [reflexivity | discriminate].
    + unfold main_area. rewrite chat_shown_form, F. cbn [negb fst snd andb].
      split; [reflexivity|]. split; [reflexivity | discriminate].
  - destruct a as [typed c bd bt| |prompt]; cbn [run]; rewrite ?F.
    + unfold main_area. rewrite chat_shown_form, F. cbn [negb fst snd].
      split; [reflexivity|]. split; [|discriminate].
      calls_norm. reflexivity.
    + cbn [on_reset then_ emit ret flow_of existsb map orb app].
      rewrite script_plain. cbn [fst snd]. split; [reflexivity|].
      split; [|discriminate].
      calls_norm. reflexivity.
    + unfold main_area. rewrite chat_shown_form, F. cbn [negb andb].
      destruct (truthy prompt) eqn:Hp.
      * destruct (chat_turn_on_chat prompt s) as [E1 E2].
        destruct (chat_turn remote client prompt s) as [s' turn].
        cbn [fst snd] in *. split; [exact E1|]. split; [|discriminate].
        calls_norm. rewrite E2. reflexivity.
      * cbn [fst snd]. split; [reflexivity|]. split; [|discriminate].
        calls_norm. reflexivity.
Qed.

End Script.

Section AfterConfirmation.
Variable key : option toml.
Variable remote : Remote.
Variable client : option Client.
Hypothesis key_ok : credential_truthy key = true.

(** X19. After a confirmation with a sign, the page left on screen
    shows the collected profile in the sidebar (the name typed or 朋友,
    the sign, the birth date and time iff they were given, the reset
    button) and, in the main area, the welcome with that name and the
    chat input, with no bubble: the system message is not drawn. *)
Theorem page_after_confirmation (typed constellation birth_date birth_time : string) s :
  form_shown s = true -> constellation <> "" ->
  let profile :=
    profile_of (form_name typed) constellation birth_date birth_time in
  interact key remote client
    (Confirm typed constellation birth_date birth_time) (as_raw s) =
  ({| user_info := profile;
      messages := [ {| role := system; content := build_system_prompt profile |} ];
      system_prompt := Some (build_system_prompt profile) |},
   page_top
   ++ map (pair Sidebar)
        ([ WHeader "✨ 星盘能量收集";
           WSuccess "✅ 星盘信息已收集";
           WInfo ("**姓名**: " +:+ form_name typed);
           WInfo ("**星座**: " +:+ constellation) ]
         ++ (if truthy birth_date
             then [WInfo ("**出生日期**: " +:+ birth_date)] else [])
         ++ (if truthy birth_time
             then [WInfo ("**出生时间**: " +:+ birth_time)] else [])
         ++ [ WButton "🔄 重新设置信息" false ])
   ++ map (pair Main)
        [ WSuccess ("✨ 欢迎，" +:+ form_name typed +:+ "！");
          WInfo "我已经读取了你的星盘能量，现在可以开始对话了。告诉我你的烦恼，我会结合你的星盘来为你解读。";
          WChatInput "告诉我你的烦恼..." ]).
Proof.
  intros F Hc profile. apply truthy_true in Hc.
  unfold interact. rewrite (script_unfold key remote client key_ok (Some _)).
  unfold sidebar at 1. rewrite F, (selectbox_index_form s F).
  rewrite on_confirm_accept by assumption. fold profile.
  cbn [flow_of existsb orb map].
  rewrite (script_plain key remote client key_ok).
  set (s' := {| user_info := profile;
                messages := [ {| role := system;
                                 content := build_system_prompt profile |} ];
                system_prompt := Some (build_system_prompt profile) |}).
  assert (Hs : chat_shown s' = true).
  { now apply (profile_of_chat_shown (form_name typed) constellation
                 birth_date birth_time). }
  assert (Hf : form_shown s' = false).
  { rewrite chat_shown_form in Hs. now apply negb_true_iff in Hs. }
  destruct (profile_of_lookup (form_name typed) constellation birth_date
              birth_time) as (Ln & Lc & Ld & Lt).
  fold profile in Ln, Lc, Ld, Lt.
  unfold sidebar, main_area. rewrite Hf, Hs. subst s'. cbn [fst snd].
  unfold summary_widgets, welcome, dict_get, dict_get_truthy.
  cbn [user_info messages length Nat.eqb history role app].
  rewrite Ln, Lc, Ld, Lt. cbn [default]. reflexivity.
Qed.

End AfterConfirmation.

Lemma missing_key_gate key remote client :
  credential_truthy key = false ->
  forall input raw,
    script key remote client input raw
    = (init_session_state raw, gate_page, Stopped) /\ calls gate_page = [].
Proof.
  intros H input raw. unfold script. rewrite H. split; reflexivity.
Qed.

(** X13. When [MY_API_KEY] is absent or false, every run draws the
    configuration error and the setup instructions and stops there: no
    form, no chat, no request, and whatever is clicked or typed the
    session stays as it was. *)
Theorem missing_key_stops_the_page key remote client :
  credential_truthy key = false ->
  (forall input raw,
      script key remote client input raw
      = (init_session_state raw, gate_page, Stopped)) /\
  (forall a s, interact key remote client a (as_raw s) = (s, gate_page)) /\
  calls gate_page = [].
Proof.
  intros H.
  assert (G : forall input raw,
             script key remote client input raw
             = (init_session_state raw, gate_page, Stopped)).
  { intros input raw. unfold script. rewrite H. reflexivity. }
  split; [exact G|]. split; [|reflexivity].
  intros a s. unfold interact. rewrite G, init_as_raw. reflexivity.
Qed.

Lemma history_visible l : history l = map bubble_of (visible l).
Proof.
  induction l as [|m l IH]; [reflexivity|].
  simpl. unfold bubble_of at 1. destruct (role m) eqn:E; simpl; rewrite ?E, IH;
    try reflexivity; unfold bubble_of at 2; rewrite E; reflexivity.
Qed.

Lemma visible_turns l : turns l = true -> visible l = l.
Proof.
  assert (G : forall n (k : list Message),
             length k <= n -> turns k = true -> visible k = k).
  { induction n as [|n IH]; intros k Hk Ht.
    - destruct k; [reflexivity | simpl in Hk; lia].
    - destruct k as [|x [|y k]]; simpl in *; [reflexivity | discriminate |].
      apply andb_true_iff in Ht as [Hxy Ht].
      apply andb_true_iff in Hxy as [Hx Hy].
      destruct (role x); try discriminate.
      destruct (role y); try discriminate.
      rewrite (IH k); [reflexivity | lia | assumption]. }
  intros Ht. now apply (G (length l)).
Qed.

Lemma visible_no_system l m : In m (visible l) -> In m l /\ role m <> system.
Proof.
  induction l as [|x l IH]; simpl; [contradiction|].
  destruct (role x) eqn:E; simpl.
  - intros H. destruct (IH H). auto.
  - intros [<-|H]; [split; [auto | congruence]|]. destruct (IH H). auto.
  - intros [<-|H]; [split; [auto | congruence]|]. destruct (IH H). auto.
Qed.

Section Drawing.
Variable remote : Remote.
Variable client : option Client.

(** X16. The history loop draws one bubble per transcript entry that is
    not a system message, in order, and none for a system message; in a
    session of the application it therefore draws everything but the
    first entry, the prompt built from the profile. *)
Theorem history_hides_system_message :
  (forall transcript, history transcript = map bubble_of (visible transcript)) /\
  (forall transcript m,
      In m (visible transcript) <-> In m transcript /\ role m <> system) /\
  (forall s,
      reachable remote client s -> chat_shown s = true ->
      exists rest,
        messages s =
          {| role := system; content := build_system_prompt (user_info s) |}
            :: rest /\
        history (messages s) = map bubble_of rest /\
        length (history (messages s)) = length (messages s) - 1).
Proof.
  split; [exact history_visible|]. split.
  - intros l m. split; [apply visible_no_system|].
    intros [Hin Hr]. induction l as [|x l IH]; [contradiction|].
    simpl. destruct Hin as [->|Hin].
    + destruct (role m); [congruence | left; reflexivity | left; reflexivity].
    + destruct (role x); [auto | right; auto | right; auto].
  - intros s R Hs.
    pose proof (reachable_system_head remote client s R Hs) as H0.
    destruct (reachable_turns remote client s R) as [E|(rest & E & Ht)];
      [rewrite E in H0; discriminate|].
    exists rest. split; [exact E|].
    rewrite history_visible, E. cbn [visible role].
    rewrite (visible_turns rest Ht). split; [reflexivity|].
    rewrite length_map. simpl. lia.
Qed.

Lemma bubbles_app p q : bubbles (p ++ q) = bubbles p ++ bubbles q.
Proof.
  induction p as [|w p IH]; [reflexivity|].
  destruct w; simpl; now rewrite IH.
Qed.

Lemma bubbles_history l : bubbles (history l) = history l.
Proof.
  induction l as [|m l IH]; [reflexivity|].
  simpl. destruct (role m); simpl; now rewrite IH.
Qed.

Lemma bubbles_welcome s : bubbles (welcome s) = [].
Proof. unfold welcome. destruct (Nat.eqb _ _); reflexivity. Qed.

Lemma history_app p q : history (p ++ q) = history p ++ history q.
Proof.
  induction p as [|m p IH]; [reflexivity|].
  simpl. destruct (role m); simpl; now rewrite IH.
Qed.

Lemma bubbles_response_log user_input transcript :
  bubbles (map shown (snd (get_ai_response remote client user_input transcript)))
  = [].
Proof.
  destruct (response_log_cases remote client user_input transcript)
    as [(_ & ->)|(c & k & _ & _ & ->)]; [reflexivity|].
  induction k as [|k IH]; [reflexivity | exact IH].
Qed.

(** X18. The bubbles drawn while a chat text is handled (the history,
    the new user text, the reply) are exactly the bubbles of the
    transcript the turn leaves behind, which the next run draws again. *)
Theorem turn_display_matches_transcript (prompt : string) s :
  chat_shown s = true -> prompt <> "" ->
  let s' := fst (main_area remote client (Some (Chat prompt)) s) in
  s' = fst (run remote client (Chat prompt) s) /\
  bubbles (snd (main_area remote client (Some (Chat prompt)) s))
    = history (messages s') /\
  bubbles (snd (main_area remote client None s')) = history (messages s') /\
  history (messages s') =
    history (messages s) ++
    [ WChatMessage user None prompt;
      WChatMessage assistant (Some "🔮")
        (fst (get_ai_response remote client prompt
                (messages s ++ [ {| role := user; content := prompt |} ]))) ].
Proof.
  intros Hs Hp. apply truthy_true in Hp.
  pose proof (bubbles_response_log prompt
                (messages s ++ [ {| role := user; content := prompt |} ])) as B.
  unfold main_area at 1 2. cbn [run]. rewrite Hs, Hp. cbn [andb].
  rewrite on_chat_state. unfold chat_turn.
  destruct (get_ai_response remote client prompt _) as [reply log].
  cbn [fst snd] in *. cbn zeta.
  assert (E : history
                ((messages s ++ [ {| role := user; content := prompt |} ]) ++
                 [ {| role := assistant; content := reply |} ])
              = history (messages s) ++
                [ WChatMessage user None prompt;
                  WChatMessage assistant (Some "🔮") reply ]).
  { rewrite !history_app, <- app_assoc. reflexivity. }
  split; [reflexivity|]. split; [|split].
  - cbn [messages]. rewrite E, !bubbles_app, bubbles_welcome, bubbles_history.
    rewrite B. cbn [bubbles app]. rewrite <- app_assoc. reflexivity.
  - unfold main_area, chat_shown in *. cbn [user_info messages]. rewrite Hs.
    cbn [snd]. rewrite !bubbles_app, bubbles_welcome, bubbles_history.
    cbn [bubbles]. now rewrite app_nil_r.
  - cbn [messages]. exact E.
Qed.

(** X17. In a session of the application the welcome, which addresses
    the stored name, is drawn exactly while the transcript holds the
    system message alone; it is gone once the transcript has three
    entries, and so after any handled chat text. *)
Theorem welcome_until_first_turn s :
  reachable remote client s -> chat_shown s = true ->
  (welcome s =
     [ WSuccess ("✨ 欢迎，" +:+ dict_get (user_info s) "name" "朋友" +:+ "！");
       WInfo "我已经读取了你的星盘能量，现在可以开始对话了。告诉我你的烦恼，我会结合你的星盘来为你解读。" ]
   <-> messages s =
       [ {| role := system; content := build_system_prompt (user_info s) |} ]) /\
  (welcome s = [] <-> 3 <= length (messages s)) /\
  (forall prompt, prompt <> "" ->
      welcome (fst (run remote client (Chat prompt) s)) = []).
Proof.
  intros R Hs.
  pose proof (reachable_system_head remote client s R Hs) as H0.
  destruct (reachable_turns remote client s R) as [E|(rest & E & Ht)];
    [rewrite E in H0; discriminate|].
  destruct (turns_even rest Ht) as [n Hn].
  unfold welcome. split; [|split].
  - rewrite E. cbn [length]. destruct rest as [|x rest]; simpl.
    + split; reflexivity.
    + split; discriminate.
  - rewrite E. cbn [length]. destruct rest as [|x rest]; simpl.
    + split; [discriminate | lia].
    + split; [intros _|reflexivity]. simpl in Hn. lia.
  - intros prompt Hp. apply truthy_true in Hp. cbn [run].
    rewrite Hs, Hp. cbn [andb]. rewrite on_chat_state. cbn [messages].
    rewrite !length_app. cbn [length].
    destruct (length (messages s)) as [|[|k]]; reflexivity.
Qed.

(** X15. Whenever the form is drawn the sign select box starts at the
    empty choice, so that the position of the stored sign is never looked
    up and cannot fail; in a session of the application the three text
    inputs start empty too. *)
Theorem form_starts_empty s :
  (form_shown s = true -> selectbox_index (user_info s) = Some 0) /\
  (reachable remote client s -> form_shown s = true ->
   sidebar None s =
   (s,
    [ WHeader "✨ 星盘能量收集";
      WTextInput "🌙 你的名字" "" None;
      WSelectbox "⭐ 你的星座" ("" :: constellation_options) 0;
      WTextInput "📅 出生日期 (可选)" "" (Some "YYYY-MM-DD");
      WTextInput "⏰ 出生时间 (可选)" "" (Some "HH:MM");
      WButton "✨ 确认信息，开始疗愈" true ],
    Continue)).
Proof.
  split; [apply selectbox_index_form|].
  intros R F. unfold sidebar. rewrite F, (selectbox_index_form s F).
  destruct (reachable_consistent remote client s R)
    as [(E & _)|(n & c & bd & bt & rest & _ & Hc & E & _)].
  - unfold form_widgets, dict_get. rewrite E, !lookup_empty. reflexivity.
  - apply truthy_true in Hc.
    pose proof (profile_of_chat_shown n c bd bt s Hc E) as Hs.
    rewrite chat_shown_form, F in Hs. discriminate.
Qed.

End Drawing.

(** No key: a chat text in a session with a profile changes nothing. *)
Lemma missing_key_stops_the_page_witness :
  interact None demo_remote demo_client (Chat "我很焦虑")
    (as_raw confirmed_session)
  = (confirmed_session, gate_page).
Proof.
  apply (proj1 (proj2 (missing_key_stops_the_page None demo_remote
                         demo_client eq_refl))).
Defined.

(** A chat text after the profile (Alex, 狮子), through the script. *)
Lemma script_follows_run_witness :
  fst (interact (Some (TStr "sk-file")) demo_remote demo_client
         (Chat "我很焦虑") (as_raw confirmed_session))
  = fst (run demo_remote demo_client (Chat "我很焦虑") confirmed_session).
Proof.
  apply (script_follows_run (Some (TStr "sk-file")) demo_remote demo_client
           eq_refl (Chat "我很焦虑") confirmed_session).
Defined.

(** The form of a session that has just started. *)
Lemma form_starts_empty_witness :
  selectbox_index (user_info fresh_session) = Some 0.
Proof.
  apply (proj1 (form_starts_empty demo_remote demo_client fresh_session)).
  reflexivity.
Defined.

(** The history after the profile (Alex, 狮子) and one user text: two
    bubbles for three entries. *)
Lemma history_hides_system_message_witness :
  exists rest,
    messages session_after_one_turn =
      {| role := system;
         content := build_system_prompt (user_info session_after_one_turn) |}
        :: rest /\
    history (messages session_after_one_turn) = map bubble_of rest /\
    length (history (messages session_after_one_turn))
      = length (messages session_after_one_turn) - 1.
Proof.
  apply (proj2 (proj2 (history_hides_system_message demo_remote demo_client))
           session_after_one_turn session_after_one_turn_reachable).
  vm_compute. reflexivity.
Defined.

(** The welcome right after the profile (Alex, 狮子) was confirmed. *)
Lemma welcome_until_first_turn_witness :
  welcome (fst (run demo_remote demo_client (Chat "我很焦虑")
                  confirmed_session)) = [].
Proof.
  apply (proj2 (proj2 (welcome_until_first_turn demo_remote demo_client
                         confirmed_session confirmed_session_reachable
                         eq_refl))).
  discriminate.
Defined.

(** The bubbles of the first chat text after the profile. *)
Lemma turn_display_matches_transcript_witness :
  bubbles (snd (main_area demo_remote demo_client (Some (Chat "我很焦虑"))
                  confirmed_session))
  = history (messages
               (fst (main_area demo_remote demo_client
                       (Some (Chat "我很焦虑")) confirmed_session))).
Proof.
  apply (turn_display_matches_transcript demo_remote demo_client "我很焦虑"
           confirmed_session).
  - vm_compute. reflexivity.
  - discriminate.
Defined.

(** The page after confirming (no name typed, 白羊, a birth date). *)
Lemma page_after_confirmation_witness :
  snd (interact (Some (TStr "sk-file")) demo_remote demo_client
         (Confirm "" "白羊" "1990-01-01" "") (as_raw fresh_session))
  = page_top
    ++ map (pair Sidebar)
         [ WHeader "✨ 星盘能量收集";
           WSuccess "✅ 星盘信息已收集";
           WInfo "**姓名**: 朋友";
           WInfo "**星座**: 白羊";
           WInfo "**出生日期**: 1990-01-01";
           WButton "🔄 重新设置信息" false ]
    ++ map (pair Main)
         [ WSuccess "✨ 欢迎，朋友！";
           WInfo "我已经读取了你的星盘能量，现在可以开始对话了。告诉我你的烦恼，我会结合你的星盘来为你解读。";
           WChatInput "告诉我你的烦恼..." ].
Proof.
  rewrite (page_after_confirmation (Some (TStr "sk-file")) demo_remote
             demo_client eq_refl "" "白羊" "1990-01-01" "" fresh_session).
  - reflexivity.
  - reflexivity.
  - discriminate.
Defined.

Lemma script_initialises key remote client input raw :
  script key remote client input raw
  = script key remote client input (as_raw (init_session_state raw)).
Proof. unfold script. now rewrite init_as_raw. Qed.

(** X4. A run in which no widget fires leaves the session as it finds
    it, apart from filling in the keys that are missing, and sends
    nothing: a session that has its three keys comes out unchanged,
    whether or not a key is configured. *)
Theorem plain_run_keeps_session key remote client (raw : RawSession) :
  fst (fst (script key remote client None raw)) = init_session_state raw /\
  calls (snd (fst (script key remote client None raw))) = [] /\
  snd (script key remote client None raw) <> Crashed /\
  (forall u, raw_user_info raw = Some u ->
             user_info (init_session_state raw) = u) /\
  (forall m, raw_messages raw = Some m ->
             messages (init_session_state raw) = m) /\
  (forall p, raw_system_prompt raw = Some p ->
             system_prompt (init_session_state raw) = p) /\
  (forall s, raw = as_raw s ->
             fst (fst (script key remote client None raw)) = s).
Proof.
  assert (G : fst (fst (script key remote client None raw))
              = init_session_state raw /\
              calls (snd (fst (script key remote client None raw))) = [] /\
              snd (script key remote client None raw) <> Crashed).
  { destruct (credential_truthy key) eqn:K.
    - rewrite script_initialises, (script_plain key remote client K).
      cbn [fst snd]. split; [reflexivity|]. split; [|discriminate].
      unfold sidebar, main_area.
      destruct (form_shown (init_session_state raw)) eqn:F.
      + rewrite (selectbox_index_form _ F), chat_shown_form, F.
        reflexivity.
      + rewrite chat_shown_form, F. cbn [negb fst snd].
        unfold page_top.
        repeat (rewrite ?calls_app, ?map_app; cbn [map calls app]).
        now rewrite calls_summary, calls_welcome, calls_history.
    - destruct (missing_key_gate key remote client K None raw) as [-> _].
      cbn [fst snd]. split; [reflexivity|]. split; [reflexivity|discriminate]. }
  destruct G as (G1 & G2 & G3).
  split; [exact G1|]. split; [exact G2|]. split; [exact G3|].
  unfold init_session_state.
  repeat split; try (intros ? ->; reflexivity).
  intros s ->. rewrite G1. apply init_as_raw.
Qed.

(** A session with a profile and a transcript, run again. *)
Lemma plain_run_keeps_session_witness :
  fst (fst (script (Some (TStr "sk-file")) demo_remote demo_client None
              (as_raw session_after_one_turn)))
  = session_after_one_turn.
Proof.
  apply (proj2 (proj2 (proj2 (proj2 (proj2 (proj2
           (plain_run_keeps_session (Some (TStr "sk-file")) demo_remote
              demo_client (as_raw session_after_one_turn)))))))
           session_after_one_turn).
  reflexivity.
Defined.
